(** * fontname.py: renaming the name records of OpenType fonts

    A shallow embedding of [src/fontname.py] and the properties of its
    command-line driver and renamer.

    Python [str] values are modelled as [string]; a character is a code
    point below 256.  The font library (fontTools) and the file system are
    not part of the program: they are an interface, [Platform], over which
    every general statement is quantified.  [MemFS] is one small instance
    of it, used to run the program on concrete argument lists. *)

From Stdlib Require Import ZArith NArith Ascii String Lia.
From stdpp Require Import base option list strings gmap.

#[local] Arguments String.append !_ _ : simpl nomatch.

(** ** Python string operations used by the program *)

Module Py.

Definition space : ascii := " "%char.
Definition colon : ascii := ":"%char.
Definition dot : ascii := "."%char.
Definition slash : ascii := "/"%char.
Definition hyphen : ascii := "-"%char.

(** [os.linesep] on a POSIX system. *)
Definition linesep : string := String (ascii_of_nat 10) "".

(** [c.isspace()] for a code point below 256: TAB..CR, FS..US, SPACE,
    NEL (0x85) and NBSP (0xA0). *)
Definition isspace (c : ascii) : bool :=
  let n := N_of_ascii c in
  ((9 <=? n) && (n <=? 13) || (28 <=? n) && (n <=? 32)
   || (n =? 133) || (n =? 160))%N.

(** [c in s] for a one-character [c]. *)
Fixpoint contains (c : ascii) (s : string) : bool :=
  match s with
  | EmptyString => false
  | String a r => if Ascii.eqb a c then true else contains c r
  end.

(** [s.replace(old, new)] for a one-character [old]. *)
Fixpoint replace (old : ascii) (new : string) (s : string) : string :=
  match s with
  | EmptyString => EmptyString
  | String a r =>
      if Ascii.eqb a old then new +:+ replace old new r
      else String a (replace old new r)
  end.

(** [s.split(sep, 1)] for a one-character [sep]: one element when [sep]
    does not occur, otherwise the text before the first [sep] and the
    text after it. *)
Fixpoint split1 (sep : ascii) (s : string) : list string :=
  match s with
  | EmptyString => [EmptyString]
  | String a r =>
      if Ascii.eqb a sep then [EmptyString; r]
      else match split1 sep r with
           | h :: t => String a h :: t
           | [] => []
           end
  end.

Fixpoint lstrip (s : string) : string :=
  match s with
  | EmptyString => EmptyString
  | String a r => if isspace a then lstrip r else s
  end.

Fixpoint rstrip (s : string) : string :=
  match s with
  | EmptyString => EmptyString
  | String a r =>
      match rstrip r with
      | EmptyString => if isspace a then EmptyString else String a EmptyString
      | r' => String a r'
      end
  end.

(** [s.strip()] *)
Definition strip (s : string) : string := rstrip (lstrip s).

(** [s.rfind(c)] for a one-character [c]: the index of the last
    occurrence, [-1] when there is none.  [rfind_from c s i] is the
    search in [s] whose first character has index [i]. *)
Fixpoint rfind_from (c : ascii) (s : string) (i : Z) : Z :=
  match s with
  | EmptyString => (-1)%Z
  | String a r =>
      let k := rfind_from c r (i + 1) in
      if (0 <=? k)%Z then k else if Ascii.eqb a c then i else (-1)%Z
  end.

Definition rfind (c : ascii) (s : string) : Z := rfind_from c s 0.

(** The slices [s[:n]] and [s[n:]] for [0 <= n]. *)
Fixpoint take (n : nat) (s : string) : string :=
  match n, s with
  | S n', String a r => String a (take n' r)
  | _, _ => EmptyString
  end.

Fixpoint drop (n : nat) (s : string) : string :=
  match n, s with
  | S n', String a r => drop n' r
  | _, _ => s
  end.

(** The loop of [genericpath._splitext] that skips the leading dots of
    the file name: [true] when some character at an index in
    [filenameIndex, filenameIndex + n) is not a dot. *)
Fixpoint skip_leading_dots (p : string) (filenameIndex n : nat) : bool :=
  match n with
  | O => false
  | S n' =>
      match String.get filenameIndex p with
      | Some a =>
          if Ascii.eqb a dot then skip_leading_dots p (S filenameIndex) n'
          else true
      | None => true
      end
  end.

(** [posixpath.splitext(p)] ([sep] is "/", [altsep] is [None], [extsep]
    is "."). *)
Definition splitext (p : string) : string * string :=
  let sepIndex := rfind slash p in
  let dotIndex := rfind dot p in
  if (sepIndex <? dotIndex)%Z then
    let filenameIndex := (sepIndex + 1)%Z in
    if skip_leading_dots p (Z.to_nat filenameIndex)
                         (Z.to_nat (dotIndex - filenameIndex))
    then (take (Z.to_nat dotIndex) p, drop (Z.to_nat dotIndex) p)
    else (p, EmptyString)
  else (p, EmptyString).

(** [range(start, stop, step)] for [0 < step]: [count] values from
    [start]. *)
Fixpoint range_from (start step count : nat) : list nat :=
  match count with
  | O => []
  | S n => start :: range_from (start + step) step n
  end.

Definition range (start stop step : nat) : list nat :=
  range_from start step ((stop - start + (step - 1)) / step).

End Py.

(** ** Family and style (lines 59-60)

    [family_style.split(":", 1)] unpacked into two names, each stripped;
    [None] when the unpacking raises [ValueError]. *)

Definition split_spec (family_style : string) : option (string * string) :=
  match Py.split1 Py.colon family_style with
  | [font_name; style] => Some (Py.strip font_name, Py.strip style)
  | _ => None
  end.

(** ** The name strings (lines 73-77) *)

Record NameStrings := {
  postscript_font_name : string;
  nameID1_string : string;
  nameID16_string : string;
  nameID4_string : string;
  nameID6_string : string
}.

Definition name_strings (font_name style : string) : NameStrings :=
  let postscript_font_name := Py.replace Py.space "" font_name in
  {| postscript_font_name := postscript_font_name;
     nameID1_string := font_name;
     nameID16_string := font_name;
     nameID4_string := font_name +:+ " " +:+ style;
     nameID6_string :=
       postscript_font_name +:+ "-" +:+ Py.replace Py.space "" style |}.

(** The specification's wording: a string with all space characters
    removed. *)
Fixpoint remove_spaces (s : string) : string :=
  match s with
  | EmptyString => EmptyString
  | String a r =>
      if Ascii.eqb a Py.space then remove_spaces r
      else String a (remove_spaces r)
  end.

(** ** Fonts as the program sees them

    A loaded [ttLib.TTFont] is opaque to the program except for the record
    list of its name table and its optional CFF table. *)

(** The payload of a name record: [bytes] as decoded from the file, [str]
    once the program has assigned it. *)
Inductive NameString :=
| PyBytes (data : string)
| PyStr (s : string).

Record NameRecord := {
  nameID : Z;
  platformID : Z;
  platEncID : Z;
  langID : Z;
  string_ : NameString
}.

Record TopDict := {
  FamilyName : option string;
  FullName : option string
}.

Record CFFFontSet := {
  fontNames : list string;
  topDictIndex : list TopDict
}.

(** [table_name] is [None] when [tt["name"]] raises [KeyError];
    [table_CFF] is [Some] exactly when ["CFF " in tt]. *)
Record TTFont := {
  table_name : option (list NameRecord);
  table_CFF : option CFFFontSet
}.

(** A Python exception: its class and [str(e)]. *)
Record Exn := mkExn { exn_class : string; exn_str : string }.

Definition IndexError_list : Exn :=
  mkExn "IndexError" "list index out of range".
Definition KeyError_name : Exn := mkExn "KeyError" "'name'".
Definition NameError_ttf : Exn := mkExn "NameError" "name 'ttf' is not defined".
Definition ValueError_unpack : Exn :=
  mkExn "ValueError" "not enough values to unpack (expected 2, got 1)".

(** ** Observable effects *)

(** The texts the program writes to [sys.stderr], one constructor per
    write in the source. *)
Inductive Diagnostic :=
| ErrPairs                           (* line 33 *)
| Usage (text : string)              (* line 36 *)
| ErrParse (e : Exn)                 (* line 47 *)
| ErrFormat (family_style : string)  (* line 54 *)
| ErrPath (font_path : string)       (* line 64 *)
| ErrCFF (e : Exn)                   (* line 100 *)
| ErrSave (new_filename : string)    (* line 116 *)
| ErrSaveDetail (e : Exn).           (* line 119 *)

Definition dquote : string := String (ascii_of_nat 34) "".

Definition prefix : string := "[fontname.py] ERROR:".

Definition render (d : Diagnostic) : string :=
  match d with
  | ErrPairs =>
      "[fontname.py] ERROR: arguments must be pairs of " +:+ dquote +:+
      "Font Family:Weight" +:+ dquote +:+ " and font path." +:+ Py.linesep
  | Usage text => text
  | ErrParse e =>
      "[fontname.py] ERROR: Unable to parse arguments. " +:+ exn_str e +:+
      Py.linesep
  | ErrFormat family_style =>
      "[fontname.py] ERROR: '" +:+ family_style +:+
      "' must be in 'Font Family:Weight' format." +:+ Py.linesep
  | ErrPath font_path =>
      "[fontname.py] ERROR: the path '" +:+ font_path +:+
      "' does not appear to be a valid file path." +:+ Py.linesep
  | ErrCFF e =>
      "[fontname.py] ERROR: unable to write new names to CFF table: " +:+
      exn_str e
  | ErrSave new_filename =>
      "[fontname.py] ERROR: unable to save new font file '" +:+
      new_filename +:+ "'. " +:+ Py.linesep
  | ErrSaveDetail e => exn_str e +:+ Py.linesep
  end.

Inductive Event :=
| Print (line : string)                       (* print(line) *)
| StderrWrite (d : Diagnostic)                (* sys.stderr.write(render d) *)
| Load (font_path : string)                   (* ttLib.TTFont(font_path) *)
| Save (tt : TTFont) (new_filename : string). (* tt.save(new_filename) *)

(** How a computation stops early: [sys.exit(code)], or an exception.  An
    exception that reaches the top level makes the interpreter print a
    traceback and end the process with status 1. *)
Inductive Halt :=
| SysExit (code : Z)
| Raise (e : Exn).

Inductive Res (A : Type) :=
| Val (a : A)
| Stop (h : Halt).
Arguments Val {A} a.
Arguments Stop {A} h.

Definition exit_code {A} (r : Res A) : Z :=
  match r with
  | Val _ => 0
  | Stop (SysExit code) => code
  | Stop (Raise _) => 1
  end.

(** ** The collaborators: file system and font library *)

Class Platform (World : Type) := {
  os_path_exists : World -> string -> bool;
  os_path_isfile : World -> string -> bool;
  (** [ttLib.TTFont(path)]: the loaded font, or the exception raised. *)
  TTFont_open : World -> string -> Exn + TTFont;
  (** [tt.save(path)]: the file system afterwards, and the exception
      raised if the write failed. *)
  TTFont_save : World -> TTFont -> string -> World * option Exn
}.

(** ** The name-record update (lines 80-90) *)

Definition set_string (record : NameRecord) (s : string) : NameRecord :=
  {| nameID := nameID record;
     platformID := platformID record;
     platEncID := platEncID record;
     langID := langID record;
     string_ := PyStr s |}.

Definition update_record (n : NameStrings) (style : string)
    (record : NameRecord) : NameRecord :=
  if (nameID record =? 1)%Z then set_string record (nameID1_string n)
  else if (nameID record =? 4)%Z then set_string record (nameID4_string n)
  else if (nameID record =? 6)%Z then set_string record (nameID6_string n)
  else if (nameID record =? 16)%Z then set_string record (nameID16_string n)
  else if (nameID record =? 2)%Z then set_string record style
  else record.

Definition update_name_records (n : NameStrings) (style : string)
    (namerecord_list : list NameRecord) : list NameRecord :=
  update_record n style <$> namerecord_list.

(** ** The CFF update (lines 95-98) *)

(** An assignment to an attribute of [cff.cff[0]]; [IndexError] when the
    font set has no top dict. *)
Definition set_top0 (f : TopDict -> TopDict) (cff : CFFFontSet)
    : Exn + CFFFontSet :=
  match topDictIndex cff with
  | [] => inl IndexError_list
  | top :: rest =>
      inr {| fontNames := fontNames cff; topDictIndex := f top :: rest |}
  end.

Definition set_FamilyName (v : string) (top : TopDict) : TopDict :=
  {| FamilyName := Some v; FullName := FullName top |}.

Definition set_FullName (v : string) (top : TopDict) : TopDict :=
  {| FamilyName := FamilyName top; FullName := Some v |}.

(** The body of the [try]: the font set as the three assignments leave
    it, and the exception that interrupted them, if any. *)
Definition update_cff (n : NameStrings) (cff : CFFFontSet)
    : CFFFontSet * option Exn :=
  match set_top0 (set_FamilyName (nameID1_string n)) cff with
  | inl e => (cff, Some e)
  | inr cff1 =>
      match set_top0 (set_FullName (nameID4_string n)) cff1 with
      | inl e => (cff1, Some e)
      | inr cff2 =>
          ({| fontNames := [nameID6_string n];
              topDictIndex := topDictIndex cff2 |}, None)
      end
  end.

(** ** The output file name (lines 105-107) *)

Definition new_filename (font_path font_name style : string) : string :=
  let ext := (Py.splitext font_path).2 in
  let safe_style := Py.replace Py.space "" style in
  postscript_font_name (name_strings font_name style) +:+ "-" +:+
  safe_style +:+ ext.

Definition ok_line (new_filename font_name style : string) : string :=
  "[OK] Saved '" +:+ new_filename +:+ "' with family '" +:+ font_name +:+
  "' and style '" +:+ style +:+ "'".

(** ** The program

    A computation takes the file system and yields the effects it
    performed, in order, the file system afterwards and either a value or
    the way it stopped. *)

Record Run (World A : Type) := mkRun {
  trace : list Event;
  world : World;
  result : Res A
}.
Arguments mkRun {World A} trace world result.
Arguments trace {World A} r.
Arguments world {World A} r.
Arguments result {World A} r.

Definition M (World A : Type) : Type := World -> Run World A.

Section Program.
Context {World : Type} `{Platform World}.

Definition ret {A} (a : A) : M World A := fun w => mkRun [] w (Val a).

Definition bind {A B} (m : M World A) (k : A -> M World B) : M World B :=
  fun w =>
    let r := m w in
    match result r with
    | Val a =>
        let r' := k a (world r) in
        mkRun (trace r ++ trace r') (world r') (result r')
    | Stop h => mkRun (trace r) (world r) (Stop h)
    end.

Definition emit (e : Event) : M World unit := fun w => mkRun [e] w (Val tt).

Definition halt {A} (h : Halt) : M World A := fun w => mkRun [] w (Stop h).

(** [try: m  except Exception as e: handler e].  [SystemExit] is not an
    [Exception] and passes through. *)
Definition try_except {A} (m : M World A) (handler : Exn -> M World A)
    : M World A :=
  fun w =>
    let r := m w in
    match result r with
    | Stop (Raise e) =>
        let r' := handler e (world r) in
        mkRun (trace r ++ trace r') (world r') (result r')
    | _ => r
    end.

Notation "x <- m ;; k" := (bind m (fun x => k))
  (at level 100, m at next level, right associativity).
Notation "m ;; k" := (bind m (fun _ => k))
  (at level 100, right associativity).

Definition print (line : string) : M World unit := emit (Print line).
Definition stderr_write (d : Diagnostic) : M World unit :=
  emit (StderrWrite d).
Definition sys_exit {A} (code : Z) : M World A := halt (SysExit code).
Definition raise {A} (e : Exn) : M World A := halt (Raise e).

(** [argv[i]] *)
Definition getitem (argv : list string) (i : nat) : M World string :=
  match argv !! i with
  | Some a => ret a
  | None => raise IndexError_list
  end.

(** [file_exists] (lines 123-125) *)
Definition file_exists (filepath : string) : M World bool :=
  fun w => mkRun [] w
             (Val (os_path_exists w filepath && os_path_isfile w filepath)).

Definition ttLib_TTFont (font_path : string) : M World TTFont :=
  fun w =>
    mkRun [Load font_path] w
          match TTFont_open w font_path with
          | inl e => Stop (Raise e)
          | inr font => Val font
          end.

Definition save (tt : TTFont) (new_filename : string) : M World unit :=
  fun w =>
    let (w', r) := TTFont_save w tt new_filename in
    mkRun [Save tt new_filename] w'
          match r with
          | Some e => Stop (Raise e)
          | None => Val ()
          end.

(** [tt["name"].names] *)
Definition names (tt : TTFont) : M World (list NameRecord) :=
  match table_name tt with
  | Some namerecord_list => ret namerecord_list
  | None => raise KeyError_name
  end.

(** Line 37: the replacement field [{ttf,otf}] of the f-string is the
    expression [ttf, otf]; no name [ttf] is bound, so evaluating the
    string raises [NameError]. *)
Definition usage_text : M World string := raise NameError_ttf.

(** Lines 93-102: the font after the CFF block. *)
Definition cff_block (n : NameStrings) (tt : TTFont) : M World TTFont :=
  match table_CFF tt with
  | Some cff =>
      let (cff', r) := update_cff n cff in
      let tt' := {| table_name := table_name tt; table_CFF := Some cff' |} in
      match r with
      | Some e => stderr_write (ErrCFF e) ;; ret tt'
      | None => ret tt'
      end
  | None => ret tt
  end.

(** Lines 69-120: one font, once its arguments have been accepted. *)
Definition rename (font_name style font_path : string) : M World unit :=
  tt <- ttLib_TTFont font_path ;;
  namerecord_list <- names tt ;;
  let n := name_strings font_name style in
  let tt :=
    {| table_name := Some (update_name_records n style namerecord_list);
       table_CFF := table_CFF tt |} in
  tt <- cff_block n tt ;;
  let new_filename := new_filename font_path font_name style in
  try_except
    (save tt new_filename ;;
     print (ok_line new_filename font_name style))
    (fun e =>
       stderr_write (ErrSave new_filename) ;;
       stderr_write (ErrSaveDetail e) ;;
       sys_exit 1).

(** Lines 43-120: the body of the loop. *)
Definition body (argv : list string) (i : nat) : M World unit :=
  pair <- try_except
            (family_style <- getitem argv i ;;
             font_path <- getitem argv (i + 1) ;;
             ret (family_style, font_path))
            (fun e => stderr_write (ErrParse e) ;; sys_exit 1) ;;
  let family_style := pair.1 in
  let font_path := pair.2 in
  if negb (Py.contains Py.colon family_style) then
    stderr_write (ErrFormat family_style) ;; sys_exit 1
  else
    match split_spec family_style with
    | Some (font_name, style) =>
        exists_ <- file_exists font_path ;;
        if negb exists_ then
          stderr_write (ErrPath font_path) ;; sys_exit 1
        else rename font_name style font_path
    | None => raise ValueError_unpack
    end.

(** [for i in is_: body i] *)
Fixpoint for_each (is_ : list nat) (body : nat -> M World unit)
    : M World unit :=
  match is_ with
  | [] => ret ()
  | i :: rest => body i ;; for_each rest body
  end.

(** Lines 28-120. *)
Definition main (argv : list string) : M World unit :=
  print " " ;;
  (if ((length argv <? 2) || negb (length argv mod 2 =? 0))%nat then
     stderr_write ErrPairs ;;
     text <- usage_text ;;
     stderr_write (Usage text) ;;
     sys_exit 1
   else ret ()) ;;
  for_each (Py.range 0 (length argv) 2) (body argv).

End Program.

(** ** A file system in memory

    One instance of [Platform]: a path names a directory or a regular
    file, and a regular file is described by what loading it yields.
    Saving replaces or creates a regular file and fails on a directory. *)

Module MemFS.

Inductive File :=
| Dir
| Regular (content : Exn + TTFont).

Definition IsADirectoryError : Exn :=
  mkExn "IsADirectoryError" "[Errno 21] Is a directory".
Definition FileNotFoundError : Exn :=
  mkExn "FileNotFoundError" "[Errno 2] No such file or directory".
Definition TTLibError : Exn :=
  mkExn "TTLibError" "Not a TrueType or OpenType font (bad sfntVersion)".

#[global] Instance platform : Platform (gmap string File) := {|
  os_path_exists w p := bool_decide (is_Some (w !! p));
  os_path_isfile w p :=
    match w !! p with Some (Regular _) => true | _ => false end;
  TTFont_open w p :=
    match w !! p with
    | Some (Regular content) => content
    | Some Dir => inl IsADirectoryError
    | None => inl FileNotFoundError
    end;
  TTFont_save w tt p :=
    match w !! p with
    | Some Dir => (w, Some IsADirectoryError)
    | _ => (<[p := Regular (inr tt)]> w, None)
    end
|}.

Definition record (id : Z) (s : string) : NameRecord :=
  {| nameID := id; platformID := 3; platEncID := 1; langID := 1033;
     string_ := PyBytes s |}.

(** A TrueType font: five name records, no CFF table. *)
Definition plain : TTFont :=
  {| table_name :=
       Some [record 0 "Copyright"; record 1 "Old"; record 2 "Regular";
             record 4 "Old Regular"; record 6 "Old-Regular"];
     table_CFF := None |}.

(** An OpenType font with a CFF table of one top dict. *)
Definition with_cff : TTFont :=
  {| table_name := Some [record 1 "Old"; record 3 "id"; record 16 "Old"];
     table_CFF :=
       Some {| fontNames := ["Old-Regular"];
               topDictIndex :=
                 [{| FamilyName := Some "Old";
                     FullName := Some "Old Regular" |}] |} |}.

(** An OpenType font whose CFF table has no top dict. *)
Definition empty_cff : TTFont :=
  {| table_name := Some [record 1 "Old"];
     table_CFF := Some {| fontNames := []; topDictIndex := [] |} |}.

Definition fs : gmap string File :=
  <["a.ttf" := Regular (inr plain)]>
    (<["b.otf" := Regular (inr with_cff)]>
       (<["c.otf" := Regular (inr empty_cff)]>
          (<["broken.ttf" := Regular (inl TTLibError)]>
             (<["font" := Regular (inr plain)]>
                (<["fonts" := Dir]> ∅))))).

End MemFS.

(** ** Vocabulary of the statements *)

(** The font paths loaded and the file names saved in a trace. *)
Definition loaded (t : list Event) : list string :=
  omap (fun e => match e with Load p => Some p | _ => None end) t.

Definition saved (t : list Event) : list string :=
  omap (fun e => match e with Save _ p => Some p | _ => None end) t.

(** The diagnostics written to the error stream in a trace. *)
Definition diagnostics (t : list Event) : list Diagnostic :=
  omap (fun e => match e with StderrWrite d => Some d | _ => None end) t.

Definition prefixed (d : Diagnostic) : bool := String.prefix prefix (render d).

(** An argument count the program rejects (line 32). *)
Definition bad_count (argv : list string) : bool :=
  ((length argv <? 2) || negb (length argv mod 2 =? 0))%nat.

(** Some pair of the argument list has a spec token without ":" or a font
    path that is not an existing regular file of [w]. *)
Fixpoint bad_pair {World} `{Platform World} (w : World) (argv : list string)
    : bool :=
  match argv with
  | family_style :: font_path :: rest =>
      negb (Py.contains Py.colon family_style)
      || negb (os_path_exists w font_path && os_path_isfile w font_path)
      || bad_pair w rest
  | _ => false
  end.

(** A malformed argument list, in the specification's words. *)
Definition malformed {World} `{Platform World} (w : World)
    (argv : list string) : bool :=
  bad_count argv || bad_pair w argv.

(** No leading and no trailing whitespace. *)
Definition no_leading_space (s : string) : bool :=
  match s with
  | EmptyString => true
  | String a _ => negb (Py.isspace a)
  end.

Fixpoint no_trailing_space (s : string) : bool :=
  match s with
  | EmptyString => true
  | String a EmptyString => negb (Py.isspace a)
  | String _ r => no_trailing_space r
  end.

(** Every character is whitespace. *)
Fixpoint all_space (s : string) : bool :=
  match s with
  | EmptyString => true
  | String a r => Py.isspace a && all_space r
  end.

(** Both arguments of the pair at index [i] are there. *)
Definition pair_at (argv : list string) (i : nat) : Prop :=
  is_Some (argv !! i) /\ is_Some (argv !! (i + 1)).

(** The identifiers the program rewrites. *)
Definition renamed_id (id : Z) : bool :=
  ((id =? 1) || (id =? 2) || (id =? 4) || (id =? 6) || (id =? 16))%Z.

(** The lines printed to the standard output in a trace. *)
Definition printed (t : list Event) : list string :=
  omap (fun e => match e with Print line => Some line | _ => None end) t.

(** The pairs of an argument list, as lines 42-60 read them: family,
    style and font path of every pair whose spec token splits in two. *)
Fixpoint specs (argv : list string) : list (string * string * string) :=
  match argv with
  | family_style :: font_path :: rest =>
      match split_spec family_style with
      | Some (font_name, style) => (font_name, style, font_path) :: specs rest
      | None => specs rest
      end
  | _ => []
  end.

Definition spec_path (s : string * string * string) : string := s.2.

Definition spec_output (s : string * string * string) : string :=
  new_filename s.2 s.1.1 s.1.2.

Definition spec_ok_line (s : string * string * string) : string :=
  ok_line (spec_output s) s.1.1 s.1.2.

(** The string the update gives to a record of identifier [id], if any
    (lines 81-90). *)
Definition new_string (n : NameStrings) (style : string) (id : Z)
    : option string :=
  if (id =? 1)%Z then Some (nameID1_string n)
  else if (id =? 2)%Z then Some style
  else if (id =? 4)%Z then Some (nameID4_string n)
  else if (id =? 6)%Z then Some (nameID6_string n)
  else if (id =? 16)%Z then Some (nameID16_string n)
  else None.

(** The diagnostics written inside the loop (lines 53-120) other than the
    one of the [except] branch of line 46. *)
Definition loop_diagnostic (d : Diagnostic) : bool :=
  match d with
  | ErrFormat _ | ErrPath _ | ErrCFF _ | ErrSave _ | ErrSaveDetail _ => true
  | ErrPairs | Usage _ | ErrParse _ => false
  end.


(** * Properties *)

(** ** The model on concrete inputs *)

Example name_strings_open_sans :
  name_strings "Open Sans" "Bold Italic" =
  {| postscript_font_name := "OpenSans";
     nameID1_string := "Open Sans";
     nameID16_string := "Open Sans";
     nameID4_string := "Open Sans Bold Italic";
     nameID6_string := "OpenSans-BoldItalic" |}.
Proof. reflexivity. Qed.

Example splitext_examples :
  Py.splitext "dir.d/font.TTF" = ("dir.d/font", ".TTF") /\
  Py.splitext "dir.d/font" = ("dir.d/font", "") /\
  Py.splitext "a/.hidden" = ("a/.hidden", "") /\
  Py.splitext "..x.otf" = ("..x", ".otf") /\
  Py.splitext "x.tar.gz" = ("x.tar", ".gz") /\
  Py.range 0 6 2 = [0; 2; 4] /\ Py.range 0 5 2 = [0; 2; 4] /\
  Py.strip "  Open Sans  " = "Open Sans" /\
  Py.split1 ":" "Open Sans: Bold:x" = ["Open Sans"; " Bold:x"].
Proof. repeat split; reflexivity. Qed.

(** ** Strings *)

Section Strings.

Lemma str_app_empty_r (s : string) : s +:+ "" = s.
Proof. induction s as [|a s IH]; simpl; [done | by rewrite IH]. Qed.

Lemma str_app_assoc (a b c : string) : (a +:+ b) +:+ c = a +:+ b +:+ c.
Proof. induction a as [|x a IH]; simpl; [done | by rewrite IH]. Qed.

Lemma contains_app c (a b : string) :
  Py.contains c (a +:+ b) = Py.contains c a || Py.contains c b.
Proof.
  induction a as [|x a IH]; simpl; [done |].
  destruct (Ascii.eqb x c); [done | apply IH].
Qed.

Lemma replace_space_remove_spaces (s : string) :
  Py.replace Py.space "" s = remove_spaces s.
Proof.
  induction s as [|a s IH]; simpl; [done |].
  destruct (Ascii.eqb a Py.space); simpl; by rewrite IH.
Qed.

Lemma remove_spaces_no_space (s : string) :
  Py.contains Py.space (remove_spaces s) = false.
Proof.
  induction s as [|a s IH]; simpl; [done |].
  destruct (Ascii.eqb a Py.space) eqn:E; simpl; [done | by rewrite E].
Qed.

(** [split1] cuts at the first separator. *)
Lemma split1_contains sep (s : string) :
  Py.contains sep s = true ->
  exists before after,
    Py.split1 sep s = [before; after] /\
    s = before +:+ String sep after /\
    Py.contains sep before = false.
Proof.
  induction s as [|a s IH]; simpl; [done |].
  destruct (Ascii.eqb a sep) eqn:E.
  - intros _. apply Ascii.eqb_eq in E as ->. by exists "", s.
  - intros Hc. destruct (IH Hc) as (b & r & -> & -> & Hb).
    exists (String a b), r. simpl. by rewrite E.
Qed.

Lemma lstrip_no_leading_space (s : string) :
  no_leading_space (Py.lstrip s) = true.
Proof.
  induction s as [|a s IH]; simpl; [done |].
  destruct (Py.isspace a) eqn:E; [done | simpl; by rewrite E].
Qed.

Lemma rstrip_empty (s : string) : Py.rstrip s = "" <-> all_space s = true.
Proof.
  induction s as [|a s IH]; simpl; [done |].
  destruct (Py.rstrip s) eqn:E.
  - destruct (Py.isspace a); simpl.
    + split; [intros _; by apply IH | done].
    + split; discriminate.
  - split; [discriminate |]. intros [_ Hs]%andb_prop.
    apply IH in Hs. discriminate.
Qed.

Lemma rstrip_no_trailing_space (s : string) :
  no_trailing_space (Py.rstrip s) = true.
Proof.
  induction s as [|a s IH]; simpl; [done |].
  destruct (Py.rstrip s) as [|b r] eqn:E.
  - destruct (Py.isspace a) eqn:Ea; simpl; [done | by rewrite Ea].
  - exact IH.
Qed.

Lemma rstrip_no_leading_space (s : string) :
  no_leading_space s = true -> no_leading_space (Py.rstrip s) = true.
Proof.
  destruct s as [|a s]; simpl; [done |]. intros Ha.
  destruct (Py.rstrip s); [| done].
  destruct (Py.isspace a) eqn:Ea; [done | simpl; by rewrite Ea].
Qed.

Lemma all_space_lstrip (s : string) :
  all_space (Py.lstrip s) = all_space s.
Proof.
  induction s as [|a s IH]; simpl; [done |].
  destruct (Py.isspace a) eqn:E; simpl; [done | by rewrite E].
Qed.

Lemma strip_empty (s : string) : Py.strip s = "" <-> all_space s = true.
Proof. unfold Py.strip. by rewrite rstrip_empty, all_space_lstrip. Qed.

Lemma strip_no_leading_space (s : string) :
  no_leading_space (Py.strip s) = true.
Proof. apply rstrip_no_leading_space, lstrip_no_leading_space. Qed.

Lemma strip_no_trailing_space (s : string) :
  no_trailing_space (Py.strip s) = true.
Proof. apply rstrip_no_trailing_space. Qed.

End Strings.

(** ** Derived names *)

(** C1: for every family and style, postscriptFamily is the family with
    all space characters removed, nameFamily and nameTypographicFamily are
    the family verbatim, nameFullName is family, one space, style,
    namePostscript is postscriptFamily, a hyphen and the style with all
    space characters removed, and nameStyle, the string given to records
    of id 2, is the style verbatim. *)
Theorem C1_derived_names (font_name style : string) :
  let n := name_strings font_name style in
  postscript_font_name n = remove_spaces font_name /\
  nameID1_string n = font_name /\
  nameID16_string n = font_name /\
  nameID4_string n = font_name +:+ " " +:+ style /\
  nameID6_string n =
    postscript_font_name n +:+ "-" +:+ remove_spaces style /\
  (forall platform enc lang old,
     string_ (update_record n style
                {| nameID := 2; platformID := platform; platEncID := enc;
                   langID := lang; string_ := old |}) = PyStr style).
Proof.
  simpl. rewrite !replace_space_remove_spaces.
  repeat split; trivial.
Qed.

(** C9: for every spec token with a ":" the family and style are
    obtained, and the derived namePostscript contains no space character
    (U+0020) and is postscriptFamily, a hyphen and the style with its spaces
    removed. *)
Theorem C9_postscript_name_no_space (family_style : string) :
  Py.contains Py.colon family_style = true ->
  exists font_name style,
    split_spec family_style = Some (font_name, style) /\
    let n := name_strings font_name style in
    Py.contains Py.space (nameID6_string n) = false /\
    nameID6_string n =
      postscript_font_name n +:+ "-" +:+ remove_spaces style.
Proof.
  intros Hc. destruct (split1_contains _ _ Hc) as (b & r & Hs & _ & _).
  exists (Py.strip b), (Py.strip r). split.
  - unfold split_spec. by rewrite Hs.
  - simpl. rewrite !replace_space_remove_spaces. split; [| done].
    rewrite contains_app, remove_spaces_no_space. simpl.
    apply remove_spaces_no_space.
Qed.

Lemma C9_postscript_name_no_space_witness :
  exists font_name style,
    split_spec "Open Sans: Bold Italic" = Some (font_name, style) /\
    let n := name_strings font_name style in
    Py.contains Py.space (nameID6_string n) = false /\
    nameID6_string n =
      postscript_font_name n +:+ "-" +:+ remove_spaces style.
Proof.
  apply (C9_postscript_name_no_space "Open Sans: Bold Italic"). reflexivity.
Defined.

(** ** Spec tokens *)

(** C5, as stated, fails: the token ":" is accepted, its font is loaded
    and saved, and both the family and the style are empty. *)
Lemma C5_counterexample :
  Py.contains Py.colon ":" = true /\
  split_spec ":" = Some ("", "") /\
  let r := main [":"; "a.ttf"] MemFS.fs in
  loaded (trace r) = ["a.ttf"] /\ saved (trace r) = ["-.ttf"] /\
  result r = Val ().
Proof. vm_compute. repeat split; reflexivity. Qed.

(** C5, amended: for every accepted spec token (one with a ":"), the
    family and the style are the text before the first ":" and the text
    after it, each trimmed: they have no leading and no trailing
    whitespace, and each is empty exactly when its part of the token is
    all whitespace. *)
Theorem C5_accepted_spec_trimmed (family_style : string) :
  Py.contains Py.colon family_style = true ->
  exists before after,
    family_style = before +:+ ":" +:+ after /\
    Py.contains Py.colon before = false /\
    split_spec family_style = Some (Py.strip before, Py.strip after) /\
    no_leading_space (Py.strip before) = true /\
    no_trailing_space (Py.strip before) = true /\
    no_leading_space (Py.strip after) = true /\
    no_trailing_space (Py.strip after) = true /\
    (Py.strip before = "" <-> all_space before = true) /\
    (Py.strip after = "" <-> all_space after = true).
Proof.
  intros Hc. destruct (split1_contains _ _ Hc) as (b & r & Hs & Heq & Hb).
  exists b, r. unfold split_spec. rewrite Hs.
  repeat split;
    auto using strip_no_leading_space, strip_no_trailing_space;
    try apply strip_empty.
Qed.

Lemma C5_accepted_spec_trimmed_witness :
  exists before after,
    " Open Sans : Bold " = before +:+ ":" +:+ after /\
    Py.contains Py.colon before = false /\
    split_spec " Open Sans : Bold " =
      Some (Py.strip before, Py.strip after) /\
    no_leading_space (Py.strip before) = true /\
    no_trailing_space (Py.strip before) = true /\
    no_leading_space (Py.strip after) = true /\
    no_trailing_space (Py.strip after) = true /\
    (Py.strip before = "" <-> all_space before = true) /\
    (Py.strip after = "" <-> all_space after = true).
Proof.
  apply (C5_accepted_spec_trimmed " Open Sans : Bold "). reflexivity.
Defined.

(** ** The name-record update *)

Lemma update_record_ids n style record :
  nameID (update_record n style record) = nameID record /\
  platformID (update_record n style record) = platformID record /\
  platEncID (update_record n style record) = platEncID record /\
  langID (update_record n style record) = langID record.
Proof. unfold update_record. repeat case_match; done. Qed.

Lemma update_record_other n style record :
  renamed_id (nameID record) = false -> update_record n style record = record.
Proof.
  unfold renamed_id, update_record. intros Hid.
  repeat (case_match; [rewrite ?orb_true_r in Hid; simplify_eq/= |]).
  done.
Qed.

Lemma update_record_idempotent n style record :
  update_record n style (update_record n style record) =
  update_record n style record.
Proof.
  unfold update_record at 2.
  repeat (case_match;
          [unfold update_record; simpl; by repeat case_match |]).
  unfold update_record. by repeat case_match.
Qed.

(** C2: the name-table update keeps the number and the order of the
    records; every record keeps its nameID and its platform, encoding and
    language identifiers; a record whose nameID is not 1, 2, 4, 6 or 16 is
    unchanged. *)
Theorem C2_update_frame n style (namerecord_list : list NameRecord) :
  length (update_name_records n style namerecord_list) =
    length namerecord_list /\
  forall i record,
    namerecord_list !! i = Some record ->
    exists record',
      update_name_records n style namerecord_list !! i = Some record' /\
      nameID record' = nameID record /\
      platformID record' = platformID record /\
      platEncID record' = platEncID record /\
      langID record' = langID record /\
      (renamed_id (nameID record) = false -> record' = record).
Proof.
  unfold update_name_records. split; [apply length_fmap |].
  intros i record Hi. exists (update_record n style record).
  split; [by rewrite list_lookup_fmap, Hi |].
  destruct (update_record_ids n style record) as (? & ? & ? & ?).
  repeat split; auto using update_record_other.
Qed.

Lemma C2_update_frame_witness :
  let l := [MemFS.record 1 "Old"; MemFS.record 3 "id"] in
  let n := name_strings "Open Sans" "Bold" in
  length (update_name_records n "Bold" l) = length l /\
  exists record',
    update_name_records n "Bold" l !! 1 = Some record' /\
    nameID record' = 3%Z /\ platformID record' = 3%Z /\
    platEncID record' = 1%Z /\ langID record' = 1033%Z /\
    record' = MemFS.record 3 "id".
Proof.
  intros l n.
  destruct (C2_update_frame n "Bold" l) as [Hlen Hframe].
  split; [exact Hlen |].
  destruct (Hframe 1 (MemFS.record 3 "id") eq_refl)
    as (record' & Hi & H1 & H2 & H3 & H4 & Hsame).
  exists record'. repeat split; auto.
Defined.

(** ** Paths and extensions *)

Section Splitext.

Lemma take_drop n (s : string) : Py.take n s +:+ Py.drop n s = s.
Proof.
  revert s. induction n as [|n IH]; intros [|a s]; simpl; try done.
  by rewrite IH.
Qed.

Lemma take_app_length (a b : string) :
  Py.take (String.length a) (a +:+ b) = a.
Proof. induction a as [|x a IH]; simpl; [by destruct b | by rewrite IH]. Qed.

Lemma drop_app_length (a b : string) :
  Py.drop (String.length a) (a +:+ b) = b.
Proof. induction a as [|x a IH]; simpl; [by destruct b | done]. Qed.

Lemma drop_add n m (s : string) :
  Py.drop (n + m) s = Py.drop m (Py.drop n s).
Proof.
  revert s. induction n as [|n IH]; intros s; simpl; [done |].
  destruct s as [|a s]; [by destruct m | apply IH].
Qed.

Lemma contains_drop c n (s : string) :
  Py.contains c s = false -> Py.contains c (Py.drop n s) = false.
Proof.
  revert s. induction n as [|n IH]; intros s; simpl; [done |].
  destruct s as [|a s]; simpl; [done |].
  destruct (Ascii.eqb a c); [done | apply IH].
Qed.

Lemma get_app_l j (a b : string) x :
  String.get j a = Some x -> String.get j (a +:+ b) = Some x.
Proof.
  revert j. induction a as [|y a IH]; intros j; simpl; [done |].
  destruct j; [done | apply IH].
Qed.

Lemma get_app_length (a b : string) x :
  String.get (String.length a) (a +:+ String x b) = Some x.
Proof. induction a as [|y a IH]; simpl; done. Qed.

Lemma rfind_from_none c (s : string) i :
  Py.contains c s = false -> Py.rfind_from c s i = (-1)%Z.
Proof.
  revert i. induction s as [|a s IH]; intros i; simpl; [done |].
  destruct (Ascii.eqb a c); [done |]. intros Hc. by rewrite IH.
Qed.

(** [rfind] finds the last occurrence. *)
Lemma rfind_from_spec c (s : string) (i : Z) :
  (0 <= i)%Z ->
  let k := Py.rfind_from c s i in
  (k = (-1)%Z /\ Py.contains c s = false) \/
  ((i <= k < i + Z.of_nat (String.length s))%Z /\
   exists r, Py.drop (Z.to_nat (k - i)) s = String c r /\
             Py.contains c r = false).
Proof.
  revert i. induction s as [|a s IH]; intros i Hi; simpl; [by left |].
  destruct (IH (i + 1)%Z ltac:(lia)) as [[Hk Hc] | [Hk (r & Hd & Hr)]].
  - rewrite Hk. simpl. destruct (Ascii.eqb a c) eqn:E.
    + right. split; [lia |]. apply Ascii.eqb_eq in E as ->.
      exists s. by rewrite Z.sub_diag.
    + by left.
  - destruct (Z.leb_spec 0 (Py.rfind_from c s (i + 1))); [| lia].
    right. split; [lia |]. exists r. split; [| done].
    replace (Z.to_nat (Py.rfind_from c s (i + 1) - i))
      with (S (Z.to_nat (Py.rfind_from c s (i + 1) - (i + 1)))) by lia.
    done.
Qed.

Lemma rfind_from_app c (a b : string) (i : Z) :
  (0 <= i)%Z ->
  Py.rfind_from c (a +:+ b) i =
  let k := Py.rfind_from c b (i + Z.of_nat (String.length a)) in
  if (0 <=? k)%Z then k else Py.rfind_from c a i.
Proof.
  revert i. induction a as [|x a IH]; intros i Hi; simpl String.length.
  - simpl. rewrite Z.add_0_r.
    destruct (rfind_from_spec c b i Hi) as [[Hk _] | [Hk _]].
    + by rewrite Hk.
    + destruct (Z.leb_spec 0 (Py.rfind_from c b i)); [done | lia].
  - simpl. rewrite (IH (i + 1)%Z) by lia. simpl.
    replace (i + 1 + Z.of_nat (String.length a))%Z
      with (i + Z.of_nat (S (String.length a)))%Z by lia.
    destruct (0 <=? Py.rfind_from c b _)%Z eqn:E; [by rewrite E | done].
Qed.

Lemma skip_leading_dots_true (p : string) n f j x :
  f <= j < f + n -> String.get j p = Some x -> x <> Py.dot ->
  Py.skip_leading_dots p f n = true.
Proof.
  revert f. induction n as [|n IH]; intros f Hj Hget Hx; simpl; [lia |].
  destruct (String.get f p) as [y|] eqn:Hf; [| done].
  destruct (Ascii.eqb y Py.dot) eqn:E; [| done].
  apply Ascii.eqb_eq in E as ->.
  apply IH; [| done..].
  destruct (decide (j = f)) as [-> |]; [congruence | lia].
Qed.

(** The result of [splitext]: the two parts make up the path, and the
    extension is empty or a dot followed by characters other than "."
    and "/". *)
Lemma splitext_spec (p : string) :
  (Py.splitext p).1 +:+ (Py.splitext p).2 = p /\
  ((Py.splitext p).2 = "" \/
   exists e, (Py.splitext p).2 = String Py.dot e /\
             Py.contains Py.dot e = false /\
             Py.contains Py.slash e = false).
Proof.
  unfold Py.splitext.
  destruct (Z.ltb_spec (Py.rfind Py.slash p) (Py.rfind Py.dot p)) as [Hlt|];
    [| simpl; split; [apply str_app_empty_r | by left]].
  destruct (Py.skip_leading_dots _ _ _);
    [| simpl; split; [apply str_app_empty_r | by left]].
  simpl. split; [apply take_drop |]. right.
  unfold Py.rfind in *.
  destruct (rfind_from_spec Py.dot p 0 ltac:(lia))
    as [[Hk _] | [Hk (e & Hd & He)]].
  { destruct (rfind_from_spec Py.slash p 0 ltac:(lia))
      as [[Hs _] | [Hs _]]; lia. }
  rewrite Z.sub_0_r in Hd. exists e. split; [done |]. split; [done |].
  destruct (rfind_from_spec Py.slash p 0 ltac:(lia))
    as [[_ Hc] | [Hs (r & Hr & Hcr)]].
  - apply (contains_drop _ (Z.to_nat (Py.rfind_from Py.dot p 0))) in Hc.
    rewrite Hd in Hc. simpl in Hc. done.
  - rewrite Z.sub_0_r in Hr.
    set (ks := Py.rfind_from Py.slash p 0) in *.
    set (kd := Py.rfind_from Py.dot p 0) in *.
    replace (Z.to_nat kd)
      with (Z.to_nat ks + S (Z.to_nat (kd - ks - 1))) in Hd by lia.
    rewrite drop_add, Hr in Hd. simpl in Hd.
    apply (contains_drop _ (Z.to_nat (kd - ks - 1))) in Hcr.
    rewrite Hd in Hcr. simpl in Hcr. done.
Qed.

Lemma rfind_app_absent c (a b : string) :
  Py.contains c b = false -> Py.rfind c (a +:+ b) = Py.rfind c a.
Proof.
  intros Hb. unfold Py.rfind. rewrite rfind_from_app by lia.
  by rewrite (rfind_from_none c b).
Qed.

Lemma rfind_app_last c (a b : string) :
  Py.contains c b = false ->
  Py.rfind c (a +:+ String c b) = Z.of_nat (String.length a).
Proof.
  intros Hb. unfold Py.rfind. rewrite rfind_from_app by lia.
  cbn [Py.rfind_from]. rewrite (rfind_from_none c b) by done.
  rewrite Ascii.eqb_refl. cbn zeta. rewrite Z.add_0_l.
  change (0 <=? -1)%Z with false. cbn iota.
  by destruct (Z.leb_spec 0 (Z.of_nat (String.length a))); [| lia].
Qed.

Lemma rfind_lt_length c (s : string) :
  (-1 <= Py.rfind c s < Z.of_nat (String.length s))%Z.
Proof.
  unfold Py.rfind.
  destruct (rfind_from_spec c s 0 ltac:(lia)) as [[Hk _]|[Hk _]]; lia.
Qed.

Lemma get_Some_lt j (s : string) x :
  String.get j s = Some x -> j < String.length s.
Proof.
  revert j. induction s as [|y s IH]; intros j; simpl; [done |].
  destruct j; [lia |]. intros Hg. apply IH in Hg. lia.
Qed.

(** A name that ends in an extension is split at that extension, when
    its last component has a character other than a dot before it. *)
Lemma splitext_app_ext (stem e : string) j x :
  Py.contains Py.dot e = false ->
  Py.contains Py.slash e = false ->
  (Py.rfind Py.slash stem < Z.of_nat j)%Z ->
  String.get j stem = Some x -> x <> Py.dot ->
  Py.splitext (stem +:+ String Py.dot e) = (stem, String Py.dot e).
Proof.
  intros Hd Hs Hj Hget Hx. unfold Py.splitext.
  rewrite rfind_app_last by done.
  rewrite rfind_app_absent by (simpl; exact Hs).
  pose proof (get_Some_lt _ _ _ Hget) as Hlen.
  pose proof (rfind_lt_length Py.slash stem) as Hsep.
  destruct (Z.ltb_spec (Py.rfind Py.slash stem)
              (Z.of_nat (String.length stem))); [| lia].
  rewrite (skip_leading_dots_true _ _ _ j x);
    [| lia | by apply get_app_l | done].
  by rewrite Nat2Z.id, take_app_length, drop_app_length.
Qed.

End Splitext.

(** ** The output path *)

Lemma remove_spaces_contains c (s : string) :
  Py.contains c s = false -> Py.contains c (remove_spaces s) = false.
Proof.
  induction s as [|a s IH]; simpl; [done |].
  destruct (Ascii.eqb a c) eqn:E; [done |]. intros Hc.
  destruct (Ascii.eqb a Py.space); simpl; [auto |]. rewrite E. auto.
Qed.

Lemma new_filename_unfold font_path font_name style :
  new_filename font_path font_name style =
  (remove_spaces font_name +:+ String Py.hyphen (remove_spaces style)) +:+
  (Py.splitext font_path).2.
Proof.
  unfold new_filename. simpl.
  by rewrite !replace_space_remove_spaces, str_app_assoc.
Qed.

(** C7: the output path is postscriptFamily, a hyphen, the style with its
    spaces removed and the extension of the input path; the extension is
    the tail of the input path that [splitext] cuts off, character for
    character, so it is empty or begins with its dot; two input paths
    with the same extension give the same output path, whatever their
    base names. *)
Theorem C7_output_path (font_path font_name style : string) :
  let ext := (Py.splitext font_path).2 in
  new_filename font_path font_name style =
    postscript_font_name (name_strings font_name style) +:+ "-" +:+
    remove_spaces style +:+ ext /\
  postscript_font_name (name_strings font_name style) =
    remove_spaces font_name /\
  (exists root, font_path = root +:+ ext) /\
  (ext = "" \/
   exists e, ext = String Py.dot e /\ Py.contains Py.dot e = false /\
             Py.contains Py.slash e = false) /\
  (forall font_path',
     (Py.splitext font_path').2 = ext ->
     new_filename font_path' font_name style =
     new_filename font_path font_name style).
Proof.
  intros ext. destruct (splitext_spec font_path) as [Hroot Hext].
  repeat split.
  - unfold new_filename. simpl. by rewrite !replace_space_remove_spaces.
  - simpl. apply replace_space_remove_spaces.
  - by exists (Py.splitext font_path).1.
  - exact Hext.
  - intros font_path' Heq. unfold new_filename. by rewrite Heq.
Qed.

Lemma C7_output_path_witness :
  new_filename "fonts/Old-Regular.TTF" "Open Sans" "Bold Italic" =
    "OpenSans-BoldItalic.TTF" /\
  new_filename "x.TTF" "Open Sans" "Bold Italic" =
  new_filename "fonts/Old-Regular.TTF" "Open Sans" "Bold Italic".
Proof.
  destruct (C7_output_path "fonts/Old-Regular.TTF" "Open Sans" "Bold Italic")
    as (Hname & _ & _ & _ & Hindep).
  split; [exact Hname |]. apply Hindep. reflexivity.
Defined.

(** C8, as stated, fails on the output path: the family "Sans 2.0" with
    style "Bold" turns the input path "font", which has no extension, into
    "Sans2.0-Bold"; with that file as the new input the extension is
    ".0-Bold" and the output path is a different one. *)
Lemma C8_counterexample :
  let out := new_filename "font" "Sans 2.0" "Bold" in
  split_spec "Sans 2.0:Bold" = Some ("Sans 2.0", "Bold") /\
  out = "Sans2.0-Bold" /\
  new_filename out "Sans 2.0" "Bold" = "Sans2.0-Bold.0-Bold" /\
  new_filename out "Sans 2.0" "Bold" <> out /\
  saved (trace (main ["Sans 2.0:Bold"; "font";
                      "Sans 2.0:Bold"; "Sans2.0-Bold"] MemFS.fs)) =
    ["Sans2.0-Bold"; "Sans2.0-Bold.0-Bold"].
Proof. vm_compute. repeat split; (reflexivity || discriminate). Qed.

(** C8, amended: applying the name-record update twice with the same spec
    gives the same records as applying it once; the output path computed
    again from the first output path is the same path whenever the input
    path has an extension and the style contains no "/". *)
Theorem C8_update_idempotent (font_path font_name style : string)
    (namerecord_list : list NameRecord) :
  let n := name_strings font_name style in
  update_name_records n style (update_name_records n style namerecord_list) =
    update_name_records n style namerecord_list /\
  ((Py.splitext font_path).2 <> "" ->
   Py.contains Py.slash style = false ->
   new_filename (new_filename font_path font_name style) font_name style =
   new_filename font_path font_name style).
Proof.
  intros n. split.
  - unfold update_name_records. rewrite <- list_fmap_compose.
    apply list_fmap_ext. intros i record _. simpl.
    apply update_record_idempotent.
  - intros Hext Hslash. rewrite !new_filename_unfold. f_equal.
    destruct (splitext_spec font_path) as [_ [He | (e & He & Hd & Hs)]];
      [done |].
    rewrite He.
    rewrite (splitext_app_ext _ e (String.length (remove_spaces font_name))
               Py.hyphen); try done.
    + rewrite rfind_app_absent.
      * pose proof (rfind_lt_length Py.slash (remove_spaces font_name)). lia.
      * simpl. by apply remove_spaces_contains.
    + apply get_app_length.
Qed.

Lemma C8_update_idempotent_witness :
  let n := name_strings "Open Sans" "Bold Italic" in
  update_name_records n "Bold Italic"
    (update_name_records n "Bold Italic" [MemFS.record 1 "Old"]) =
    update_name_records n "Bold Italic" [MemFS.record 1 "Old"] /\
  new_filename (new_filename "a.ttf" "Open Sans" "Bold Italic")
               "Open Sans" "Bold Italic" =
  new_filename "a.ttf" "Open Sans" "Bold Italic".
Proof.
  destruct (C8_update_idempotent "a.ttf" "Open Sans" "Bold Italic"
              [MemFS.record 1 "Old"]) as [Hrec Hpath].
  split; [exact Hrec |]. apply Hpath; [discriminate | reflexivity].
Defined.

(** ** Runs of the program *)

Section Runs.
Context {World : Type} `{Platform World}.

Ltac unfold_run :=
  unfold rename, cff_block, names, ttLib_TTFont, save, file_exists,
    getitem, usage_text, print, stderr_write, sys_exit, raise, emit, halt,
    try_except, bind, ret in *.

Ltac run_cases :=
  unfold_run; simpl in *;
  repeat (case_match; simpl in *; simplify_eq; try done).

Lemma run_eta {A} (r : Run World A) :
  mkRun (trace r) (world r) (result r) = r.
Proof. by destruct r. Qed.

Lemma bind_ret_l {A B} (a : A) (k : A -> M World B) w :
  bind (ret a) k w = k a w.
Proof. unfold bind, ret. simpl. apply run_eta. Qed.

Lemma bind_assoc {A B C} (m : M World A) (k : A -> M World B)
    (k' : B -> M World C) w :
  bind (bind m k) k' w = bind m (fun a => bind (k a) k') w.
Proof.
  unfold bind. simpl. destruct (result (m w)); simpl; [| done].
  destruct (result (k a (world (m w)))); simpl; [| done].
  by rewrite app_assoc.
Qed.

Lemma bind_ext {A B} (m : M World A) (k k' : A -> M World B) w :
  (forall a w', k a w' = k' a w') -> bind m k w = bind m k' w.
Proof. intros Hk. unfold bind. by destruct (result (m w)); rewrite ?Hk. Qed.

Lemma for_each_app (l1 l2 : list nat) (f : nat -> M World unit) w :
  for_each (l1 ++ l2) f w =
  bind (for_each l1 f) (fun _ => for_each l2 f) w.
Proof.
  revert w. induction l1 as [|i l1 IH]; intros w; simpl.
  - by rewrite bind_ret_l.
  - rewrite bind_assoc. by apply bind_ext.
Qed.

Lemma bind_success {A B} (m : M World A) (k : A -> M World B) w b :
  result (bind m k w) = Val b ->
  exists a,
    result (m w) = Val a /\ result (k a (world (m w))) = Val b /\
    trace (bind m k w) = trace (m w) ++ trace (k a (world (m w))) /\
    world (bind m k w) = world (k a (world (m w))).
Proof.
  unfold bind. destruct (result (m w)) as [a|h]; simpl; [| done].
  intros Hb. by exists a.
Qed.

Lemma bind_stop {A B} (m : M World A) (k : A -> M World B) w h :
  result (m w) = Stop h ->
  bind m k w = mkRun (trace (m w)) (world (m w)) (Stop h).
Proof. unfold bind. by intros ->. Qed.

Lemma bind_val {A B} (m : M World A) (k : A -> M World B) w a :
  result (m w) = Val a ->
  bind m k w =
  mkRun (trace (m w) ++ trace (k a (world (m w))))
        (world (k a (world (m w)))) (result (k a (world (m w)))).
Proof. unfold bind. by intros ->. Qed.

(** The results of [rename]. *)
Lemma rename_success font_name style font_path w :
  let r := rename font_name style font_path w in
  result r = Val () ->
  loaded (trace r) = [font_path] /\
  saved (trace r) = [new_filename font_path font_name style].
Proof. run_cases. Qed.

Lemma rename_exit font_name style font_path w code :
  let r := rename font_name style font_path w in
  result r = Stop (SysExit code) ->
  code = 1%Z /\
  ErrSave (new_filename font_path font_name style) ∈ diagnostics (trace r).
Proof. run_cases; intros; simplify_eq; split; set_solver. Qed.

Lemma rename_no_parse_error font_name style font_path w e :
  StderrWrite (ErrParse e) ∉ trace (rename font_name style font_path w).
Proof.
  unfold_run; simpl; repeat (case_match; simpl);
    intros Hin;
    repeat (apply elem_of_cons in Hin as [Hin | Hin]; [discriminate |]);
    by apply elem_of_nil in Hin.
Qed.

(** The loop body on a pair that is there. *)
Lemma body_eq argv i family_style font_path w :
  argv !! i = Some family_style ->
  argv !! (i + 1) = Some font_path ->
  body argv i w =
  if negb (Py.contains Py.colon family_style) then
    mkRun [StderrWrite (ErrFormat family_style)] w (Stop (SysExit 1))
  else
    match split_spec family_style with
    | Some (font_name, style) =>
        if negb (os_path_exists w font_path && os_path_isfile w font_path)
        then mkRun [StderrWrite (ErrPath font_path)] w (Stop (SysExit 1))
        else rename font_name style font_path w
    | None => mkRun [] w (Stop (Raise ValueError_unpack))
    end.
Proof.
  intros Hi Hi'. unfold body, try_except, getitem, bind at 1 2 3.
  rewrite Hi. simpl. rewrite Hi'. simpl.
  destruct (Py.contains Py.colon family_style); simpl; [| done].
  destruct (split_spec family_style) as [[font_name style]|]; [| done].
  unfold bind at 1, file_exists. simpl.
  destruct (os_path_exists w font_path && os_path_isfile w font_path);
    simpl; [apply run_eta | done].
Qed.

Lemma split_spec_contains family_style :
  Py.contains Py.colon family_style = true ->
  exists font_name style, split_spec family_style = Some (font_name, style).
Proof.
  intros Hc. destruct (split1_contains _ _ Hc) as (b & r & Hs & _).
  unfold split_spec. rewrite Hs. eauto.
Qed.

Lemma body_success argv i family_style font_path w :
  argv !! i = Some family_style ->
  argv !! (i + 1) = Some font_path ->
  result (body argv i w) = Val () ->
  Py.contains Py.colon family_style = true /\
  os_path_exists w font_path && os_path_isfile w font_path = true /\
  loaded (trace (body argv i w)) = [font_path] /\
  length (saved (trace (body argv i w))) = 1.
Proof.
  intros Hi Hi'. rewrite (body_eq _ _ _ _ _ Hi Hi').
  destruct (Py.contains Py.colon family_style); simpl; [| done].
  destruct (split_spec family_style) as [[font_name style]|]; [| done].
  destruct (os_path_exists w font_path && os_path_isfile w font_path);
    simpl; [| done].
  intros Hr. destruct (rename_success _ _ _ _ Hr) as [-> ->]. done.
Qed.

(** The indices of the loop. *)
Lemma elem_of_range_from i start step count :
  i ∈ Py.range_from start step count <->
  exists j, j < count /\ i = start + j * step.
Proof.
  revert start. induction count as [|count IH]; intros start; simpl.
  - split; [by intros ?%elem_of_nil | intros (j & ? & _); lia].
  - rewrite elem_of_cons, IH. split.
    + intros [-> | (j & Hj & ->)]; [exists 0; lia | exists (S j); lia].
    + intros ([|j] & Hj & ->); [left; lia | right; exists j; lia].
Qed.

Lemma range_from_app start step a b :
  Py.range_from start step (a + b) =
  Py.range_from start step a ++ Py.range_from (start + a * step) step b.
Proof.
  revert start. induction a as [|a IH]; intros start; simpl.
  - by rewrite Nat.add_0_r.
  - rewrite IH. do 3 f_equal. lia.
Qed.

Lemma range_pairs k : Py.range 0 (2 * k) 2 = Py.range_from 0 2 k.
Proof.
  unfold Py.range. f_equal.
  replace (2 * k - 0 + (2 - 1)) with (1 + k * 2) by lia.
  by rewrite Nat.div_add.
Qed.

Lemma even_length (argv : list string) :
  bad_count argv = false ->
  exists m, length argv = 2 * m /\ 1 <= m.
Proof.
  unfold bad_count. intros [Hlen Hmod]%orb_false_elim.
  apply Nat.ltb_ge in Hlen. apply negb_false_iff, Nat.eqb_eq in Hmod.
  exists (length argv `div` 2).
  pose proof (Nat.div_mod_eq (length argv) 2). lia.
Qed.

Lemma range_even (argv : list string) m :
  length argv = 2 * m -> Py.range 0 (length argv) 2 = Py.range_from 0 2 m.
Proof. intros ->. apply range_pairs. Qed.

Lemma length_range_from start step count :
  length (Py.range_from start step count) = count.
Proof.
  revert start. induction count as [|count IH]; intros start; simpl;
    [done | by rewrite IH].
Qed.

(** The two exits of the argument-count check. *)
Lemma main_bad_count argv w :
  bad_count argv = true ->
  main argv w =
  mkRun [Print " "; StderrWrite ErrPairs] w (Stop (Raise NameError_ttf)).
Proof. unfold bad_count, main. intros ->. done. Qed.

Lemma main_good_count argv w :
  bad_count argv = false ->
  let r := for_each (Py.range 0 (length argv) 2) (body argv) w in
  main argv w = mkRun (Print " " :: trace r) (world r) (result r).
Proof.
  unfold bad_count, main. intros ->. simpl.
  unfold bind at 1 2, print, emit, ret. simpl. done.
Qed.

Lemma pair_at_range (argv : list string) m i :
  length argv = 2 * m -> i ∈ Py.range_from 0 2 m -> pair_at argv i.
Proof.
  intros Hlen (j & Hj & ->)%elem_of_range_from.
  split; apply lookup_lt_is_Some; lia.
Qed.

Lemma body_exit_code argv i w :
  pair_at argv i ->
  result (body argv i w) = Val () \/ exit_code (result (body argv i w)) = 1%Z.
Proof.
  intros [[family_style Hi] [font_path Hi']].
  rewrite (body_eq _ _ _ _ _ Hi Hi').
  destruct (Py.contains Py.colon family_style); simpl; [| by right].
  destruct (split_spec family_style) as [[font_name style]|]; [| by right].
  destruct (negb _); [by right |].
  destruct (result (rename font_name style font_path w))
    as [[]|[code|e]] eqn:Hr; [by left | right ..]; simpl; [| done].
  by destruct (rename_exit _ _ _ _ _ Hr).
Qed.

Lemma body_no_parse_error argv i w e :
  pair_at argv i -> StderrWrite (ErrParse e) ∉ trace (body argv i w).
Proof.
  intros [[family_style Hi] [font_path Hi']].
  rewrite (body_eq _ _ _ _ _ Hi Hi').
  destruct (Py.contains Py.colon family_style); simpl;
    [| by intros [?|?%elem_of_nil]%elem_of_cons].
  destruct (split_spec family_style) as [[font_name style]|];
    [| by intros ?%elem_of_nil].
  destruct (negb _); [by intros [?|?%elem_of_nil]%elem_of_cons |].
  apply rename_no_parse_error.
Qed.

Lemma trace_bind {A B} (m : M World A) (k : A -> M World B) w :
  trace (bind m k w) = trace (m w) \/
  exists a, result (m w) = Val a /\
    trace (bind m k w) = trace (m w) ++ trace (k a (world (m w))).
Proof. unfold bind. destruct (result (m w)); simpl; eauto. Qed.

Lemma for_each_exit_code argv is_ w :
  (forall i, i ∈ is_ -> pair_at argv i) ->
  let r := for_each is_ (body argv) w in
  result r = Val () \/ exit_code (result r) = 1%Z.
Proof.
  revert w. induction is_ as [|i is_ IH]; intros w Hin; simpl; [by left |].
  unfold bind.
  destruct (body_exit_code argv i w) as [-> | Hcode];
    [apply Hin; by left | |].
  - simpl. apply IH. intros j Hj. apply Hin. by right.
  - destruct (result (body argv i w)); simpl; [done | by right].
Qed.

Lemma for_each_no_parse_error argv is_ w e :
  (forall i, i ∈ is_ -> pair_at argv i) ->
  StderrWrite (ErrParse e) ∉ trace (for_each is_ (body argv) w).
Proof.
  revert w. induction is_ as [|i is_ IH]; intros w Hin; simpl;
    [by intros ?%elem_of_nil |].
  assert (pair_at argv i) as Hi by (apply Hin; by left).
  assert (forall j, j ∈ is_ -> pair_at argv j) as Hin'
    by (intros j Hj; apply Hin; by right).
  destruct (trace_bind (body argv i) (fun _ => for_each is_ (body argv)) w)
    as [-> | (a & _ & ->)].
  - by apply body_no_parse_error.
  - intros [?|?]%elem_of_app; [by eapply body_no_parse_error |].
    by eapply IH.
Qed.

(** Pairs that were all processed. *)
Lemma for_each_success argv is_ w :
  (forall i, i ∈ is_ -> pair_at argv i) ->
  let r := for_each is_ (body argv) w in
  result r = Val () ->
  loaded (trace r) = omap (fun i => argv !! (i + 1)) is_ /\
  length (saved (trace r)) = length is_ /\
  (forall i family_style,
     i ∈ is_ -> argv !! i = Some family_style ->
     Py.contains Py.colon family_style = true).
Proof.
  revert w. induction is_ as [|i is_ IH]; intros w Hin; simpl.
  { intros _. repeat split. by intros i s ?%elem_of_nil. }
  intros Hr. apply bind_success in Hr as ([] & Hb & Hrest & -> & _).
  destruct (Hin i) as [[family_style Hi] [font_path Hi']]; [by left |].
  destruct (body_success _ _ _ _ _ Hi Hi' Hb) as (Hc & _ & Hl & Hs).
  destruct (IH (world (body argv i w))) as (IHl & IHs & IHc); [| done |].
  { intros j Hj. apply Hin. by right. }
  unfold loaded, saved in *. rewrite !omap_app, !length_app.
  rewrite Hl, IHl, Hs, IHs, Hi'. repeat split.
  intros j s [-> | Hj]%elem_of_cons Hjs; [congruence | by eapply IHc].
Qed.

(** C10: when the argument list passes the length check (even, at least
    2), every index [i] of the loop has both [argv[i]] and [argv[i+1]]
    in bounds, and no run writes the "Unable to parse arguments"
    diagnostic. *)
Theorem C10_pair_indices_in_bounds (argv : list string) :
  bad_count argv = false ->
  (forall i, i ∈ Py.range 0 (length argv) 2 ->
     is_Some (argv !! i) /\ is_Some (argv !! (i + 1))) /\
  (forall w e, StderrWrite (ErrParse e) ∉ trace (main argv w)).
Proof.
  intros Hcount. destruct (even_length _ Hcount) as (m & Hlen & _).
  rewrite (range_even _ _ Hlen).
  split; [intros i Hi; by apply (pair_at_range argv m) |].
  intros w e. rewrite (main_good_count _ _ Hcount). simpl.
  rewrite (range_even _ _ Hlen).
  intros [? | Hin]%elem_of_cons; [done |]. revert Hin.
  apply for_each_no_parse_error. intros i. by apply pair_at_range.
Qed.

(** C3, amended: an argument list of odd length or of length below 2
    ends the process with code 1 after the count diagnostic, before any
    font is loaded or written.  An argument list with a spec token
    without ":" ends the process with code 1, wherever the token is.
    Pairs are checked one at a time inside the loop: when the pairs
    before the pair at position [k] have been processed and that pair
    has a token without ":" or a path that is then not an existing
    regular file, the process ends with code 1 after the diagnostic of
    that pair; the fonts of the [k] earlier pairs have been loaded and
    saved, and no font of that pair or of a later one is. *)
Theorem C3_usage_errors (argv : list string) (w : World) :
  (bad_count argv = true ->
   exit_code (result (main argv w)) = 1%Z /\
   trace (main argv w) = [Print " "; StderrWrite ErrPairs] /\
   world (main argv w) = w) /\
  (forall k family_style,
     argv !! (2 * k) = Some family_style ->
     Py.contains Py.colon family_style = false ->
     exit_code (result (main argv w)) = 1%Z) /\
  (bad_count argv = false ->
   forall k family_style font_path,
     argv !! (2 * k) = Some family_style ->
     argv !! (2 * k + 1) = Some font_path ->
     let r := for_each (Py.range 0 (2 * k) 2) (body argv) w in
     result r = Val () ->
     Py.contains Py.colon family_style = false \/
     os_path_exists (world r) font_path
     && os_path_isfile (world r) font_path = false ->
     exit_code (result (main argv w)) = 1%Z /\
     world (main argv w) = world r /\
     trace (main argv w) =
       Print " " :: trace r ++
       [StderrWrite (if Py.contains Py.colon family_style
                     then ErrPath font_path
                     else ErrFormat family_style)] /\
     loaded (trace (main argv w)) =
       omap (fun i => argv !! (i + 1)) (Py.range 0 (2 * k) 2) /\
     length (saved (trace (main argv w))) = k).
Proof.
  split; [| split].
  - intros Hbad. by rewrite (main_bad_count _ _ Hbad).
  - intros k family_style Hk Hc.
    destruct (bad_count argv) eqn:Hcount;
      [by rewrite (main_bad_count _ _ Hcount) |].
    destruct (even_length _ Hcount) as (m & Hlen & _).
    rewrite (main_good_count _ _ Hcount). simpl.
    rewrite (range_even _ _ Hlen).
    assert (forall i, i ∈ Py.range_from 0 2 m -> pair_at argv i) as Hpairs
      by (intros i; by apply pair_at_range).
    destruct (for_each_exit_code argv _ w Hpairs) as [Hr | Hr]; [| done].
    destruct (for_each_success argv _ w Hpairs Hr) as (_ & _ & Hcolon).
    rewrite (Hcolon (2 * k) family_style) in Hc; [done | | done].
    apply elem_of_range_from. exists k.
    apply lookup_lt_Some in Hk. lia.
  - intros Hcount k family_style font_path Hk Hk' r Hr Hbad.
    destruct (even_length _ Hcount) as (m & Hlen & _).
    assert (k < m) as Hkm by (apply lookup_lt_Some in Hk; lia).
    assert (forall i, i ∈ Py.range_from 0 2 k -> pair_at argv i) as Hpairs.
    { intros i (j & Hj & ->)%elem_of_range_from.
      split; apply lookup_lt_is_Some; lia. }
    subst r. rewrite range_pairs in *.
    destruct (for_each_success argv _ w Hpairs Hr) as (Hl & Hs & _).
    rewrite length_range_from in Hs.
    assert (body argv (2 * k) (world (for_each (Py.range_from 0 2 k)
                                        (body argv) w)) =
            mkRun [StderrWrite (if Py.contains Py.colon family_style
                                then ErrPath font_path
                                else ErrFormat family_style)]
                  (world (for_each (Py.range_from 0 2 k) (body argv) w))
                  (Stop (SysExit 1))) as Hbody.
    { rewrite (body_eq _ _ _ _ _ Hk Hk').
      destruct (Py.contains Py.colon family_style) eqn:Hc; simpl; [| done].
      destruct (split_spec_contains _ Hc) as (font_name & style & ->).
      destruct Hbad as [? | ->]; done. }
    rewrite (main_good_count _ _ Hcount). simpl.
    rewrite (range_even _ _ Hlen).
    replace m with (k + S (m - k - 1)) by lia.
    rewrite range_from_app, for_each_app. simpl.
    rewrite (bind_val _ _ _ _ Hr).
    replace (k * 2) with (2 * k) by lia.
    rewrite (bind_stop _ _ _ _ (f_equal result Hbody)), Hbody. simpl.
    repeat split.
    + unfold loaded in *. rewrite omap_app, Hl. simpl. apply app_nil_r.
    + unfold saved in *. rewrite omap_app, length_app, Hs. simpl. lia.
Qed.

(** The font handed to [save] carries the updated records of the font
    that was loaded. *)
Lemma rename_saves_updated_records font_name style font_path w tt
    namerecord_list tt' out :
  TTFont_open w font_path = inr tt ->
  table_name tt = Some namerecord_list ->
  Save tt' out ∈ trace (rename font_name style font_path w) ->
  table_name tt' =
    Some (update_name_records (name_strings font_name style) style
            namerecord_list) /\
  out = new_filename font_path font_name style.
Proof.
  intros Hopen Hnames. unfold_run. simpl. rewrite Hopen. simpl.
  rewrite Hnames. simpl.
  repeat (case_match; simpl in *; simplify_eq); intros Hin;
    repeat (apply elem_of_cons in Hin as [Hin | Hin];
            [try discriminate; simplify_eq; done |]);
    by apply elem_of_nil in Hin.
Qed.

(** Where a run can stop without a diagnostic of the program: only on an
    exception raised right after a font is loaded (lines 69-70). *)
Lemma rename_stop font_name style font_path w h :
  let r := rename font_name style font_path w in
  result r = Stop h ->
  (exists d, d ∈ diagnostics (trace r) /\ prefixed d = true) \/
  (exists e, h = Raise e /\ last (trace r) = Some (Load font_path)).
Proof.
  run_cases; intros; simplify_eq;
    first
      [ right; by eexists
      | left; eexists (ErrSave _); split; [| reflexivity];
        unfold diagnostics; simpl; rewrite ?elem_of_cons;
        repeat first [left; reflexivity | right] ].
Qed.

Lemma body_stop argv i w h :
  pair_at argv i ->
  let r := body argv i w in
  result r = Stop h ->
  (exists d, d ∈ diagnostics (trace r) /\ prefixed d = true) \/
  (exists e font_path, h = Raise e /\ last (trace r) = Some (Load font_path)).
Proof.
  intros [[family_style Hi] [font_path Hi']].
  rewrite (body_eq _ _ _ _ _ Hi Hi').
  destruct (Py.contains Py.colon family_style) eqn:Hc; simpl.
  - destruct (split_spec_contains _ Hc) as (font_name & style & ->).
    destruct (negb _); simpl.
    + intros _. left. exists (ErrPath font_path).
      split; [by left | reflexivity].
    + intros Hr. destruct (rename_stop _ _ _ _ _ Hr) as [? | (e & ? & ?)];
        [by left | right; by exists e, font_path].
  - intros _. left. exists (ErrFormat family_style).
    split; [by left | reflexivity].
Qed.

Lemma for_each_stop argv is_ w h :
  (forall i, i ∈ is_ -> pair_at argv i) ->
  let r := for_each is_ (body argv) w in
  result r = Stop h ->
  (exists d, d ∈ diagnostics (trace r) /\ prefixed d = true) \/
  (exists e font_path, h = Raise e /\ last (trace r) = Some (Load font_path)).
Proof.
  revert w. induction is_ as [|i is_ IH]; intros w Hin; simpl; [done |].
  assert (pair_at argv i) as Hi by (apply Hin; by left).
  assert (forall j, j ∈ is_ -> pair_at argv j) as Hin'
    by (intros j Hj; apply Hin; by right).
  unfold bind. destruct (result (body argv i w)) as [[]|h'] eqn:Hb; simpl.
  - intros Hr. destruct (IH _ Hin' Hr) as [(d & Hd & Hp) | (e & p & -> & Hl)].
    + left. exists d. split; [| done].
      unfold diagnostics in *. rewrite omap_app. apply elem_of_app. by right.
    + right. exists e, p. split; [done |].
      destruct (trace (for_each is_ (body argv) (world (body argv i w))))
        as [|ev t] using rev_ind; [done |].
      rewrite app_assoc, !last_snoc in *. done.
  - intros [= ->]. by apply body_stop.
Qed.

Lemma main_stop argv w h :
  result (main argv w) = Stop h ->
  (exists d, d ∈ diagnostics (trace (main argv w)) /\ prefixed d = true) \/
  (exists e font_path,
     h = Raise e /\ last (trace (main argv w)) = Some (Load font_path)).
Proof.
  destruct (bad_count argv) eqn:Hcount.
  - rewrite (main_bad_count _ _ Hcount). intros _. left.
    exists ErrPairs. split; [by left | reflexivity].
  - destruct (even_length _ Hcount) as (m & Hlen & _).
    rewrite (main_good_count _ _ Hcount). simpl.
    rewrite (range_even _ _ Hlen). intros Hr.
    destruct (for_each_stop argv _ w h (fun i => pair_at_range argv m i Hlen)
                Hr) as [(d & Hd & Hp) | (e & p & -> & Hl)].
    + left. by exists d.
    + right. exists e, p. split; [done |].
      destruct (trace (for_each (Py.range_from 0 2 m) (body argv) w))
        as [|ev t]; done.
Qed.

End Runs.

(** ** Runs on the file system in memory *)

Lemma C10_pair_indices_in_bounds_witness :
  let argv := ["Open Sans:Bold"; "a.ttf"; "Old:Regular"; "b.otf"] in
  (forall i, i ∈ Py.range 0 (length argv) 2 ->
     is_Some (argv !! i) /\ is_Some (argv !! (i + 1))) /\
  (forall (w : gmap string MemFS.File) e,
     StderrWrite (ErrParse e) ∉ trace (main argv w)).
Proof.
  apply (C10_pair_indices_in_bounds
           ["Open Sans:Bold"; "a.ttf"; "Old:Regular"; "b.otf"]).
  reflexivity.
Defined.

(** C3, as stated, fails: the second spec token of this argument list has
    no ":", the process ends with code 1, and by then the font of the
    first pair has been loaded and saved under its new name. *)
Lemma C3_counterexample :
  let argv := ["Open Sans:Bold"; "a.ttf"; "OpenSans Bold"; "a.ttf"] in
  let r := main argv MemFS.fs in
  malformed MemFS.fs argv = true /\
  exit_code (result r) = 1%Z /\
  loaded (trace r) = ["a.ttf"] /\
  saved (trace r) = ["OpenSans-Bold.ttf"] /\
  loaded (trace r) <> [] /\
  MemFS.fs !! "OpenSans-Bold.ttf" = None /\
  is_Some (world r !! "OpenSans-Bold.ttf").
Proof.
  vm_compute. repeat split; try reflexivity; try discriminate. eauto.
Qed.

Lemma C3_usage_errors_witness :
  let argv := ["Open Sans:Bold"; "a.ttf"; "OpenSans Bold"; "a.ttf"] in
  exit_code (result (main ["Open Sans:Bold"] MemFS.fs)) = 1%Z /\
  exit_code (result (main argv MemFS.fs)) = 1%Z /\
  loaded (trace (main argv MemFS.fs)) = ["a.ttf"] /\
  length (saved (trace (main argv MemFS.fs))) = 1.
Proof.
  intros argv. split.
  - apply (C3_usage_errors ["Open Sans:Bold"] MemFS.fs). reflexivity.
  - destruct (C3_usage_errors argv MemFS.fs) as (_ & Hcolon & Hpos).
    split; [apply (Hcolon 1 "OpenSans Bold"); reflexivity |].
    destruct (Hpos eq_refl 1 "OpenSans Bold" "a.ttf")
      as (_ & _ & _ & Hl & Hs);
      [reflexivity | reflexivity | vm_compute; reflexivity
      | left; reflexivity |].
    split; [exact Hl | exact Hs].
Defined.

(** C4 does not hold on a load failure: "broken.ttf" is an existing
    regular file that is not a font; [ttLib.TTFont] raises, nothing
    catches the exception, and the process ends with status 1 without
    any write to the error stream by the program. *)
Theorem C4_load_failure_without_diagnostic :
  let w := MemFS.fs in
  let r := main ["Open Sans:Bold"; "broken.ttf"] w in
  os_path_exists w "broken.ttf" && os_path_isfile w "broken.ttf" = true /\
  trace r = [Print " "; Load "broken.ttf"] /\
  result r = Stop (Raise MemFS.TTLibError) /\
  exit_code (result r) = 1%Z /\
  diagnostics (trace r) = [].
Proof. vm_compute. repeat split; reflexivity. Qed.


Example cff_update_on_one_top_dict :
  let r := main ["Open Sans : Bold Italic"; "b.otf"] MemFS.fs in
  exists tt,
    trace r =
      [Print " "; Load "b.otf"; Save tt "OpenSans-BoldItalic.otf";
       Print ("[OK] Saved 'OpenSans-BoldItalic.otf' with family " +:+
              "'Open Sans' and style 'Bold Italic'")] /\
    table_CFF tt =
      Some {| fontNames := ["OpenSans-BoldItalic"];
              topDictIndex :=
                [{| FamilyName := Some "Open Sans";
                    FullName := Some "Open Sans Bold Italic" |}] |} /\
    result r = Val ().
Proof. vm_compute. eexists. repeat split. Qed.

(** A path that is no file when the program starts can be one when its
    pair is reached: the first pair's output is the second pair's input,
    and the run ends with code 0. *)
Example path_created_by_earlier_pair :
  let argv := ["Open Sans:Bold"; "a.ttf"; "Open Sans:Light";
               "OpenSans-Bold.ttf"] in
  let r := main argv MemFS.fs in
  malformed MemFS.fs argv = true /\
  exit_code (result r) = 0%Z /\
  saved (trace r) = ["OpenSans-Bold.ttf"; "OpenSans-Light.ttf"].
Proof. vm_compute. repeat split. Qed.

(** * Further properties of the program *)

(** ** Reading a spec token *)

Lemma split1_app sep (a b : string) :
  Py.contains sep a = false -> Py.split1 sep (a +:+ String sep b) = [a; b].
Proof.
  induction a as [|x a IH]; simpl; [by rewrite Ascii.eqb_refl |].
  destruct (Ascii.eqb x sep); [done |]. intros Ha. by rewrite IH.
Qed.

Lemma split1_absent sep (s : string) :
  Py.contains sep s = false -> Py.split1 sep s = [s].
Proof.
  induction s as [|a s IH]; simpl; [done |].
  destruct (Ascii.eqb a sep); [done |]. intros Hc. by rewrite IH.
Qed.

Lemma all_space_no_colon (s : string) :
  all_space s = true -> Py.contains Py.colon s = false.
Proof.
  induction s as [|a s IH]; simpl; [done |].
  intros [Ha Hs]%andb_prop. destruct (Ascii.eqb a Py.colon) eqn:E; [| auto].
  apply Ascii.eqb_eq in E as ->. done.
Qed.

Lemma lstrip_app_space (pad s : string) :
  all_space pad = true -> Py.lstrip (pad +:+ s) = Py.lstrip s.
Proof.
  induction pad as [|a pad IH]; simpl; [done |].
  intros [-> Hp]%andb_prop. auto.
Qed.

Lemma rstrip_app_space (s pad : string) :
  all_space pad = true -> Py.rstrip (s +:+ pad) = Py.rstrip s.
Proof.
  intros Hp. induction s as [|a s IH]; simpl.
  - by apply rstrip_empty.
  - by rewrite IH.
Qed.

Lemma lstrip_fixed (s : string) :
  no_leading_space s = true -> Py.lstrip s = s.
Proof.
  destruct s as [|a s]; simpl; [done |]. by intros ->%negb_true_iff.
Qed.

Lemma rstrip_fixed (s : string) :
  no_trailing_space s = true -> Py.rstrip s = s.
Proof.
  induction s as [|a s IH]; [done |].
  destruct s as [|b s].
  - simpl. by intros ->%negb_true_iff.
  - intros Hs. change (Py.rstrip (String a (String b s)))
      with (match Py.rstrip (String b s) with
            | EmptyString =>
                if Py.isspace a then EmptyString else String a EmptyString
            | r' => String a r'
            end).
    by rewrite IH.
Qed.

Lemma strip_padded (l s r : string) :
  all_space l = true -> all_space r = true ->
  no_leading_space s = true -> no_trailing_space s = true ->
  Py.strip (l +:+ s +:+ r) = s.
Proof.
  intros Hl Hr Hs Hs'. unfold Py.strip.
  rewrite lstrip_app_space by done.
  destruct s as [|a s].
  - simpl. apply rstrip_empty. by rewrite all_space_lstrip.
  - simpl in Hs. apply negb_true_iff in Hs. simpl. rewrite Hs.
    change (String a (s +:+ r)) with (String a s +:+ r).
    rewrite rstrip_app_space by done. by apply rstrip_fixed.
Qed.

(** X1: a spec token made of a family without ":" and a style, each
    without surrounding whitespace, joined by ":" and padded with any
    whitespace around either part, is read back as that family and that
    style; the style may itself contain ":". *)
Theorem X1_split_spec_round_trip (font_name style l1 r1 l2 r2 : string) :
  Py.contains Py.colon font_name = false ->
  no_leading_space font_name = true -> no_trailing_space font_name = true ->
  no_leading_space style = true -> no_trailing_space style = true ->
  all_space l1 = true -> all_space r1 = true ->
  all_space l2 = true -> all_space r2 = true ->
  split_spec ((l1 +:+ font_name +:+ r1) +:+ ":" +:+ (l2 +:+ style +:+ r2)) =
  Some (font_name, style).
Proof.
  intros Hc Hf Hf' Hs Hs' Hl1 Hr1 Hl2 Hr2. unfold split_spec.
  change (":" +:+ (l2 +:+ style +:+ r2))
    with (String Py.colon (l2 +:+ style +:+ r2)).
  rewrite split1_app.
  - by rewrite !strip_padded.
  - rewrite !contains_app, Hc. by rewrite !all_space_no_colon.
Qed.

Lemma X1_split_spec_round_trip_witness :
  split_spec ((" " +:+ "Open Sans" +:+ " ") +:+ ":" +:+
              ("  " +:+ "Semi:Bold" +:+ "")) =
  Some ("Open Sans", "Semi:Bold").
Proof.
  apply (X1_split_spec_round_trip "Open Sans" "Semi:Bold" " " " " "  " "");
    reflexivity.
Defined.

(** X2: the unpacking of line 59 succeeds exactly on the tokens that the
    check of line 53 lets through: [split_spec] yields a family and a
    style when the token has a ":" and nothing when it has none. *)
Theorem X2_split_spec_defined (family_style : string) :
  match split_spec family_style with
  | Some _ => true
  | None => false
  end = Py.contains Py.colon family_style.
Proof.
  destruct (Py.contains Py.colon family_style) eqn:Hc.
  - destruct (split1_contains _ _ Hc) as (b & r & Hs & _).
    unfold split_spec. by rewrite Hs.
  - unfold split_spec. by rewrite split1_absent.
Qed.

(** ** The records after the update *)

(** X3: after the update every record of the table whose nameID is 1, 2,
    4, 6 or 16 holds, as a [str], the string of that identifier: family,
    style, full name, PostScript name, family; on every platform,
    encoding and language alike. *)
Theorem X3_updated_records_hold_names n style
    (namerecord_list : list NameRecord) record s :
  record ∈ update_name_records n style namerecord_list ->
  new_string n style (nameID record) = Some s ->
  string_ record = PyStr s.
Proof.
  unfold update_name_records.
  intros (old & -> & _)%list_elem_of_fmap.
  destruct (update_record_ids n style old) as (-> & _).
  unfold new_string, update_record.
  repeat case_match; intros; simplify_eq; try done; lia.
Qed.

Lemma X3_updated_records_hold_names_witness :
  let n := name_strings "Open Sans" "Bold" in
  string_ (update_record n "Bold" (MemFS.record 4 "Old Regular")) =
  PyStr "Open Sans Bold".
Proof.
  intros n.
  apply (X3_updated_records_hold_names n "Bold"
           [MemFS.record 1 "Old"; MemFS.record 4 "Old Regular"]).
  - apply list_elem_of_lookup. exists 1. reflexivity.
  - reflexivity.
Defined.

(** ** Where the output file goes *)

Lemma remove_spaces_contains_eq c (s : string) :
  c <> Py.space -> Py.contains c (remove_spaces s) = Py.contains c s.
Proof.
  intros Hc. induction s as [|a s IH]; simpl; [done |].
  destruct (Ascii.eqb a Py.space) eqn:Ea; simpl.
  - apply Ascii.eqb_eq in Ea as ->.
    destruct (Ascii.eqb Py.space c) eqn:E; [| done].
    apply Ascii.eqb_eq in E. congruence.
  - by rewrite IH.
Qed.

Lemma splitext_ext_no_slash (p : string) :
  Py.contains Py.slash (Py.splitext p).2 = false.
Proof.
  destruct (splitext_spec p) as [_ [-> | (e & -> & _ & He)]]; [done |].
  simpl. exact He.
Qed.

(** X4: the output path has a "/" exactly when the family or the style
    has one; no directory of the input path goes into it, so a font read
    from another directory is written to the current one. *)
Theorem X4_output_path_directory (font_path font_name style : string) :
  Py.contains Py.slash (new_filename font_path font_name style) =
  Py.contains Py.slash font_name || Py.contains Py.slash style.
Proof.
  rewrite new_filename_unfold, !contains_app. simpl.
  rewrite !remove_spaces_contains_eq by done.
  by rewrite splitext_ext_no_slash, orb_false_r.
Qed.

(** X5: an input path without any "." has no extension, and the output
    path is postscriptFamily, a hyphen and the style without spaces,
    with nothing after it. *)
Theorem X5_output_path_without_extension (font_path font_name style : string) :
  Py.contains Py.dot font_path = false ->
  new_filename font_path font_name style =
  remove_spaces font_name +:+ "-" +:+ remove_spaces style.
Proof.
  intros Hdot. rewrite new_filename_unfold. unfold Py.splitext, Py.rfind.
  rewrite (rfind_from_none Py.dot) by done.
  pose proof (rfind_lt_length Py.slash font_path) as Hsep.
  unfold Py.rfind in Hsep.
  destruct (Z.ltb_spec (Py.rfind_from Py.slash font_path 0) (-1)); [lia |].
  simpl. by rewrite str_app_empty_r.
Qed.

Lemma X5_output_path_without_extension_witness :
  new_filename "fonts/OldFont" "Open Sans" "Bold" =
  remove_spaces "Open Sans" +:+ "-" +:+ remove_spaces "Bold".
Proof.
  apply (X5_output_path_without_extension "fonts/OldFont"). reflexivity.
Defined.

(** X6: for an input path made of any prefix, a base name that begins
    with a character other than "." and "/" and has no "/", a dot and an
    extension without "." and "/", the output path is postscriptFamily, a
    hyphen, the style without spaces, the dot and that extension. *)
Theorem X6_output_path_keeps_extension
    (dir : string) (x : ascii) (base e font_name style : string) :
  x <> Py.dot -> x <> Py.slash ->
  Py.contains Py.slash base = false ->
  Py.contains Py.dot e = false -> Py.contains Py.slash e = false ->
  new_filename (dir +:+ String x base +:+ "." +:+ e) font_name style =
  remove_spaces font_name +:+ "-" +:+ remove_spaces style +:+ "." +:+ e.
Proof.
  intros Hx Hx' Hb He He'.
  rewrite new_filename_unfold.
  change ("." +:+ e) with (String Py.dot e).
  rewrite <- (str_app_assoc dir (String x base)).
  rewrite (splitext_app_ext _ e (String.length dir) x); try done.
  - simpl. by rewrite str_app_assoc.
  - rewrite rfind_app_absent.
    + pose proof (rfind_lt_length Py.slash dir). lia.
    + simpl. destruct (Ascii.eqb x Py.slash) eqn:E; [| done].
      apply Ascii.eqb_eq in E. congruence.
  - apply get_app_length.
Qed.

Lemma X6_output_path_keeps_extension_witness :
  new_filename ("../fonts/" +:+ String "O" "ld-Regular" +:+ "." +:+ "OTF")
               "Open Sans" "Semi Bold" =
  remove_spaces "Open Sans" +:+ "-" +:+ remove_spaces "Semi Bold" +:+
  "." +:+ "OTF".
Proof.
  apply (X6_output_path_keeps_extension "../fonts/" "O" "ld-Regular" "OTF");
    try reflexivity; discriminate.
Defined.

(** ** The CFF table after the update *)



(** ** Whole runs *)

Section Behaviour.
Context {World : Type} `{Platform World}.

Ltac unfold_steps :=
  unfold rename, cff_block, names, ttLib_TTFont, save, file_exists,
    getitem, usage_text, print, stderr_write, sys_exit, raise, emit, halt,
    try_except, bind, ret in *.

Ltac split_steps :=
  unfold_steps; simpl in *;
  repeat (case_match; simpl in *; simplify_eq; try done).

Lemma rename_success_trace font_name style font_path w :
  let r := rename font_name style font_path w in
  result r = Val () ->
  loaded (trace r) = [font_path] /\
  saved (trace r) = [new_filename font_path font_name style] /\
  printed (trace r) =
    [ok_line (new_filename font_path font_name style) font_name style].
Proof. split_steps. Qed.

Lemma body_success_trace argv i family_style font_path w :
  argv !! i = Some family_style ->
  argv !! (i + 1) = Some font_path ->
  let r := body argv i w in
  result r = Val () ->
  exists font_name style,
    split_spec family_style = Some (font_name, style) /\
    loaded (trace r) = [font_path] /\
    saved (trace r) = [new_filename font_path font_name style] /\
    printed (trace r) =
      [ok_line (new_filename font_path font_name style) font_name style].
Proof.
  intros Hi Hi'. simpl. rewrite (body_eq _ _ _ _ _ Hi Hi').
  destruct (Py.contains Py.colon family_style); simpl; [| done].
  destruct (split_spec family_style) as [[font_name style]|]; [| done].
  destruct (negb _); [done |].
  intros Hr. exists font_name, style. split; [done |].
  by apply rename_success_trace.
Qed.

Lemma for_each_success_specs argv k :
  forall s w,
    length argv = s + 2 * k ->
    let r := for_each (Py.range_from s 2 k) (body argv) w in
    result r = Val () ->
    length (specs (drop s argv)) = k /\
    loaded (trace r) = spec_path <$> specs (drop s argv) /\
    saved (trace r) = spec_output <$> specs (drop s argv) /\
    printed (trace r) = spec_ok_line <$> specs (drop s argv).
Proof.
  induction k as [|k IH]; intros s w Hlen; simpl.
  - intros _. rewrite drop_ge by lia. done.
  - intros Hr. apply bind_success in Hr as ([] & Hb & Hrest & -> & _).
    destruct (lookup_lt_is_Some_2 argv s) as [family_style Hs]; [lia |].
    destruct (lookup_lt_is_Some_2 argv (s + 1)) as [font_path Hs']; [lia |].
    destruct (body_success_trace _ _ _ _ _ Hs Hs' Hb)
      as (font_name & style & Hspec & Hl & Hsv & Hp).
    destruct (IH (s + 2) (world (body argv s w)) ltac:(lia) Hrest)
      as (IHn & IHl & IHs & IHp).
    rewrite (drop_S _ _ _ Hs).
    replace (S s) with (s + 1) by lia. rewrite (drop_S _ _ _ Hs').
    replace (S (s + 1)) with (s + 2) by lia.
    simpl. rewrite Hspec. simpl.
    unfold loaded, saved, printed in *. rewrite !omap_app.
    rewrite Hl, Hsv, Hp, IHl, IHs, IHp, IHn. done.
Qed.

(** X9: a run that ends normally has processed every pair, in order: the
    argument count is even and at least 2, every spec token splits into a
    family and a style, so there are as many pairs read as half the
    arguments; the fonts loaded are the font paths of the pairs, the files
    saved are their output paths, and after the first line " " one
    "[OK] Saved" line is printed per pair. *)
Theorem X9_successful_run argv (w : World) :
  result (main argv w) = Val () ->
  bad_count argv = false /\
  2 * length (specs argv) = length argv /\
  loaded (trace (main argv w)) = spec_path <$> specs argv /\
  saved (trace (main argv w)) = spec_output <$> specs argv /\
  printed (trace (main argv w)) = " " :: (spec_ok_line <$> specs argv).
Proof.
  destruct (bad_count argv) eqn:Hcount;
    [by rewrite (main_bad_count _ _ Hcount) |].
  destruct (even_length _ Hcount) as (m & Hlen & _).
  rewrite (main_good_count _ _ Hcount). simpl.
  rewrite (range_even _ _ Hlen). intros Hr.
  destruct (for_each_success_specs argv m 0 w Hlen Hr)
    as (Hn & Hl & Hs & Hp).
  rewrite drop_0 in *. split; [done |]. split; [lia |].
  unfold loaded, saved, printed in *. simpl. by rewrite Hl, Hs, Hp.
Qed.

(** X10: every run ends with exit status 0 or 1, and with 0 only when
    [main] returns normally. *)
Theorem X10_exit_status argv (w : World) :
  (result (main argv w) = Val () /\ exit_code (result (main argv w)) = 0%Z)
  \/ ((exists h, result (main argv w) = Stop h) /\
      exit_code (result (main argv w)) = 1%Z).
Proof.
  destruct (bad_count argv) eqn:Hcount.
  - rewrite (main_bad_count _ _ Hcount). right. split; [by eexists | done].
  - destruct (even_length _ Hcount) as (m & Hlen & _).
    rewrite (main_good_count _ _ Hcount). simpl.
    rewrite (range_even _ _ Hlen).
    destruct (for_each_exit_code argv _ w
                (fun i => pair_at_range argv m i Hlen)) as [Hr | Hr].
    + left. by rewrite Hr.
    + right. split; [| done].
      destruct (result (for_each _ _ w)) as [[]|h]; [done | by exists h].
Qed.

(** X11: a run that does not end normally has written a diagnostic that
    begins with "[fontname.py] ERROR:", unless it ended on an exception
    raised right after a font was loaded (lines 69-70), which nothing
    catches. *)
Theorem X11_failure_diagnostics argv (w : World) h :
  result (main argv w) = Stop h ->
  (exists d, d ∈ diagnostics (trace (main argv w)) /\ prefixed d = true) \/
  (exists e font_path,
     h = Raise e /\ last (trace (main argv w)) = Some (Load font_path)).
Proof. apply main_stop. Qed.

Lemma rename_diagnostics font_name style font_path w :
  Forall (fun d => loop_diagnostic d = true)
         (diagnostics (trace (rename font_name style font_path w))).
Proof.
  unfold_steps; simpl; repeat (case_match; simpl); repeat constructor.
Qed.

Lemma body_diagnostics argv i w :
  pair_at argv i ->
  Forall (fun d => loop_diagnostic d = true)
         (diagnostics (trace (body argv i w))).
Proof.
  intros [[family_style Hi] [font_path Hi']].
  rewrite (body_eq _ _ _ _ _ Hi Hi').
  destruct (Py.contains Py.colon family_style); simpl;
    [| by repeat constructor].
  destruct (split_spec family_style) as [[font_name style]|];
    [| by constructor].
  destruct (negb _); [by repeat constructor | apply rename_diagnostics].
Qed.

Lemma for_each_diagnostics argv is_ w :
  (forall i, i ∈ is_ -> pair_at argv i) ->
  Forall (fun d => loop_diagnostic d = true)
         (diagnostics (trace (for_each is_ (body argv) w))).
Proof.
  revert w. induction is_ as [|i is_ IH]; intros w Hin; simpl;
    [by constructor |].
  assert (pair_at argv i) as Hi by (apply Hin; by left).
  assert (forall j, j ∈ is_ -> pair_at argv j) as Hin'
    by (intros j Hj; apply Hin; by right).
  destruct (trace_bind (body argv i) (fun _ => for_each is_ (body argv)) w)
    as [-> | (a & _ & ->)]; [by apply body_diagnostics |].
  unfold diagnostics. rewrite omap_app. apply Forall_app.
  split; [by apply body_diagnostics | by apply IH].
Qed.

(** X12: the "Usage:" line of line 36 is never written.  On an argument
    count that is odd or below 2 the count diagnostic is the only one:
    the run ends there on the [NameError] of the f-string of line 37, not
    through [sys.exit], and no run that ends through [sys.exit] had a bad
    argument count. *)
Theorem X12_usage_line_never_written argv (w : World) :
  (forall text, Usage text ∉ diagnostics (trace (main argv w))) /\
  (bad_count argv = true ->
   result (main argv w) = Stop (Raise NameError_ttf) /\
   diagnostics (trace (main argv w)) = [ErrPairs]) /\
  (forall code,
     result (main argv w) = Stop (SysExit code) -> bad_count argv = false).
Proof.
  destruct (bad_count argv) eqn:Hcount.
  - rewrite (main_bad_count _ _ Hcount). simpl.
    split; [| split; [done | by intros code [=]]].
    intros text [?|?%elem_of_nil]%elem_of_cons; done.
  - split; [| split; done].
    destruct (even_length _ Hcount) as (m & Hlen & _).
    rewrite (main_good_count _ _ Hcount). simpl.
    rewrite (range_even _ _ Hlen). intros text Hin.
    pose proof (for_each_diagnostics argv _ w
                  (fun i => pair_at_range argv m i Hlen)) as Hall.
    rewrite Forall_forall in Hall. by apply Hall in Hin.
Qed.



Lemma rename_counts font_name style font_path w :
  let r := rename font_name style font_path w in
  length (saved (trace r)) <= length (loaded (trace r)) /\
  length (loaded (trace r)) <= 1 /\
  (saved (trace r) = [] -> world r = w).
Proof. split_steps; repeat split; (lia || done). Qed.

Lemma body_counts argv i w :
  pair_at argv i ->
  let r := body argv i w in
  length (saved (trace r)) <= length (loaded (trace r)) /\
  length (loaded (trace r)) <= 1 /\
  (saved (trace r) = [] -> world r = w).
Proof.
  intros [[family_style Hi] [font_path Hi']]. simpl.
  rewrite (body_eq _ _ _ _ _ Hi Hi').
  destruct (Py.contains Py.colon family_style); simpl;
    [| repeat split; lia].
  destruct (split_spec family_style) as [[font_name style]|];
    [| simpl; repeat split; lia].
  destruct (negb _); [simpl; repeat split; lia | apply rename_counts].
Qed.

Lemma for_each_counts argv is_ w :
  (forall i, i ∈ is_ -> pair_at argv i) ->
  let r := for_each is_ (body argv) w in
  length (saved (trace r)) <= length (loaded (trace r)) /\
  length (loaded (trace r)) <= length is_ /\
  (saved (trace r) = [] -> world r = w).
Proof.
  revert w. induction is_ as [|i is_ IH]; intros w Hin; simpl;
    [repeat split; lia |].
  assert (pair_at argv i) as Hi by (apply Hin; by left).
  assert (forall j, j ∈ is_ -> pair_at argv j) as Hin'
    by (intros j Hj; apply Hin; by right).
  destruct (body_counts argv i w Hi) as (Hb1 & Hb2 & Hb3).
  unfold bind. destruct (result (body argv i w)) as [[]|h]; simpl.
  - destruct (IH (world (body argv i w)) Hin') as (IH1 & IH2 & IH3).
    unfold saved, loaded in *. rewrite !omap_app, !length_app.
    repeat split; [lia | lia |].
    intros [Hs1 Hs2]%app_eq_nil. rewrite IH3, Hb3; done.
  - repeat split; [lia | lia | done].
Qed.

(** X15: no run saves more fonts than it loaded, or loads more fonts than
    the argument list has pairs. *)
Theorem X15_saves_follow_loads argv (w : World) :
  let t := trace (main argv w) in
  length (saved t) <= length (loaded t) /\
  length (loaded t) <= length argv `div` 2.
Proof.
  destruct (bad_count argv) eqn:Hcount.
  - rewrite (main_bad_count _ _ Hcount). simpl. lia.
  - destruct (even_length _ Hcount) as (m & Hlen & _).
    assert (length argv `div` 2 = m) as ->.
    { rewrite Hlen. replace (2 * m) with (m * 2) by lia.
      by apply Nat.div_mul. }
    rewrite (main_good_count _ _ Hcount). cbn [trace].
    rewrite (range_even _ _ Hlen).
    destruct (for_each_counts argv _ w
                (fun i => pair_at_range argv m i Hlen)) as (H1 & H2 & _).
    rewrite length_range_from in H2.
    split; [exact H1 | exact H2].
Qed.

(** X16: the file system changes only through a save: a run in whose
    trace no font is saved ends with the file system it started with. *)
Theorem X16_no_save_no_change argv (w : World) :
  saved (trace (main argv w)) = [] -> world (main argv w) = w.
Proof.
  destruct (bad_count argv) eqn:Hcount.
  - by rewrite (main_bad_count _ _ Hcount).
  - destruct (even_length _ Hcount) as (m & Hlen & _).
    rewrite (main_good_count _ _ Hcount). simpl.
    rewrite (range_even _ _ Hlen).
    by destruct (for_each_counts argv _ w
                   (fun i => pair_at_range argv m i Hlen)) as (_ & _ & ?).
Qed.

(** X17: the run stops at the first pair that stops.  When the pairs
    before position [k] were processed and the pair at position [k] stops,
    for whatever reason, the run ends in the same way, right after the
    effects of that pair: no later pair is read, loaded or saved. *)
Theorem X17_first_stop_ends_run argv (w : World) k h :
  bad_count argv = false ->
  2 * k < length argv ->
  let r := for_each (Py.range 0 (2 * k) 2) (body argv) w in
  let b := body argv (2 * k) (world r) in
  result r = Val () ->
  result b = Stop h ->
  main argv w = mkRun (Print " " :: trace r ++ trace b) (world b) (Stop h).
Proof.
  intros Hcount Hk r b Hr Hb. subst r b. rewrite range_pairs in *.
  destruct (even_length _ Hcount) as (m & Hlen & _).
  rewrite (main_good_count _ _ Hcount). simpl.
  rewrite (range_even _ _ Hlen).
  replace m with (k + S (m - k - 1)) by lia.
  rewrite range_from_app, for_each_app. simpl.
  rewrite (bind_val _ _ _ _ Hr).
  replace (k * 2) with (2 * k) by lia.
  by rewrite (bind_stop _ _ _ _ Hb).
Qed.

Lemma rename_loaded font_name style font_path w :
  loaded (trace (rename font_name style font_path w)) = [font_path].
Proof. split_steps. Qed.

(** X18: [file_exists] gates the load.  For a pair whose spec token has a
    ":", the font is loaded exactly when the path exists and is a regular
    file; otherwise, a directory included, the only effect of the pair is
    the diagnostic about the path, the exit code is 1 and the file system
    is untouched. *)
Theorem X18_file_check_gates_load argv i family_style font_path (w : World) :
  argv !! i = Some family_style ->
  argv !! (i + 1) = Some font_path ->
  Py.contains Py.colon family_style = true ->
  let r := body argv i w in
  if os_path_exists w font_path && os_path_isfile w font_path
  then loaded (trace r) = [font_path]
  else r = mkRun [StderrWrite (ErrPath font_path)] w (Stop (SysExit 1)).
Proof.
  intros Hi Hi' Hc. simpl. rewrite (body_eq _ _ _ _ _ Hi Hi'), Hc. simpl.
  destruct (split_spec_contains _ Hc) as (font_name & style & ->).
  destruct (os_path_exists w font_path && os_path_isfile w font_path);
    simpl; [apply rename_loaded | done].
Qed.

End Behaviour.

Lemma X9_successful_run_witness :
  let argv := ["Open Sans : Bold"; "a.ttf"; "Old:Light Italic"; "b.otf"] in
  loaded (trace (main argv MemFS.fs)) = ["a.ttf"; "b.otf"] /\
  saved (trace (main argv MemFS.fs)) =
    ["OpenSans-Bold.ttf"; "Old-LightItalic.otf"].
Proof.
  intros argv.
  destruct (X9_successful_run argv MemFS.fs) as (_ & _ & Hl & Hs & _);
    [vm_compute; reflexivity |].
  split; [exact Hl | exact Hs].
Defined.

Lemma X11_failure_diagnostics_witness :
  let argv := ["Open Sans:Bold"; "missing.ttf"] in
  (exists d, d ∈ diagnostics (trace (main argv MemFS.fs)) /\
             prefixed d = true) \/
  (exists e font_path,
     SysExit 1 = Raise e /\
     last (trace (main argv MemFS.fs)) = Some (Load font_path)).
Proof.
  apply (X11_failure_diagnostics ["Open Sans:Bold"; "missing.ttf"] MemFS.fs).
  vm_compute. reflexivity.
Defined.

Lemma X12_usage_line_never_written_witness :
  result (main ["Open Sans:Bold"] MemFS.fs) = Stop (Raise NameError_ttf) /\
  diagnostics (trace (main ["Open Sans:Bold"] MemFS.fs)) = [ErrPairs].
Proof.
  apply (X12_usage_line_never_written ["Open Sans:Bold"] MemFS.fs).
  reflexivity.
Defined.



Lemma X16_no_save_no_change_witness :
  world (main ["Open Sans:Bold"; "broken.ttf"] MemFS.fs) = MemFS.fs.
Proof.
  apply (X16_no_save_no_change ["Open Sans:Bold"; "broken.ttf"] MemFS.fs).
  vm_compute. reflexivity.
Defined.

Lemma X17_first_stop_ends_run_witness :
  let argv := ["Open Sans:Bold"; "a.ttf"; "Old:Light"; "broken.ttf";
               "Old:Thin"; "b.otf"] in
  let r := for_each (Py.range 0 2 2) (body argv) MemFS.fs in
  let b := body argv 2 (world r) in
  main argv MemFS.fs =
  mkRun (Print " " :: trace r ++ trace b) (world b)
        (Stop (Raise MemFS.TTLibError)).
Proof.
  intros argv.
  apply (X17_first_stop_ends_run argv MemFS.fs 1 (Raise MemFS.TTLibError));
    [reflexivity | simpl; lia | vm_compute; reflexivity
    | vm_compute; reflexivity].
Defined.

Lemma X18_file_check_gates_load_witness :
  body ["Open Sans:Bold"; "fonts"] 0 MemFS.fs =
  mkRun [StderrWrite (ErrPath "fonts")] MemFS.fs (Stop (SysExit 1)).
Proof.
  pose proof (X18_file_check_gates_load ["Open Sans:Bold"; "fonts"] 0
                "Open Sans:Bold" "fonts" MemFS.fs eq_refl eq_refl eq_refl)
    as Hgate.
  assert (os_path_exists MemFS.fs "fonts" && os_path_isfile MemFS.fs "fonts"
          = false) as Hdir by (vm_compute; reflexivity).
  cbv zeta in Hgate. rewrite Hdir in Hgate. exact Hgate.
Defined.
